(** * Facial-emotion training harness: embedding and verified properties

    The development follows the two source files of the repository:
    [model_builder.py] (the three network topologies and their selector)
    and [main.py] (dataset wrapper, data preparation, evaluation, and the
    train / test / compare-and-replace loop of [main]).

    Python values are embedded as follows.
    - [str] is [string]; [str.lower] is the ASCII lowering of each character.
    - [int] is [Z]; a [list] indexed by an [int] follows Python's rule for
      negative indices and raises [IndexError] out of range.
    - Numbers that the framework computes in floating point (accuracies,
      scaled pixels, augmentation ranges) are exact rationals [Q].
    - A call that can raise returns [result]; code that also touches the
      file system, the console or the ML framework runs in the state and
      exception monad [M] over [World]. *)

From Stdlib Require Import ZArith QArith Ascii String List Bool Lia.
From Stdlib Require Import Decimal DecimalString DecimalZ DecimalPos Qround.
From stdpp Require Import gmap strings list fin_maps.

Local Open Scope string_scope.
Local Open Scope list_scope.
Local Open Scope Z_scope.

(** ** Python exceptions and results *)

Inductive exn : Type :=
| TypeError (msg : string)
| ValueError (msg : string)
| IndexError
| ZeroDivisionError
| StopIteration
| FileNotFoundError (path : string)
| FileExistsError (path : string)
| RuntimeError (msg : string)
| NameError (name : string).

Inductive result (A : Type) : Type :=
| Ok (a : A)
| Raise (e : exn).
Arguments Ok {A} a.
Arguments Raise {A} e.

(** A call of a function declared with exactly one required
    positional parameter: any other number of arguments is a [TypeError]
    raised before the body runs. *)
Definition call1 {A B} (fname : string) (f : A -> result B) (args : list A) : result B :=
  match args with
  | [a] => f a
  | [] => Raise (TypeError (fname +:+ "() missing 1 required positional argument"))
  | _ => Raise (TypeError (fname +:+ "() takes 1 positional argument"))
  end.

(** ** Strings *)

Definition is_upper (c : ascii) : bool :=
  let n := N_of_ascii c in ((65 <=? n) && (n <=? 90))%N.

Definition lower_char (c : ascii) : ascii :=
  if is_upper c then ascii_of_N (N_of_ascii c + 32) else c.

(** [str.lower()] *)
Fixpoint lower (s : string) : string :=
  match s with
  | EmptyString => EmptyString
  | String c s' => String (lower_char c) (lower s')
  end.

(** Two characters are the same letter up to case: they are equal, or one is
    an upper-case letter and the other is the lower-case letter 32 code
    points above it. *)
Definition same_letter (c d : ascii) : bool :=
  Ascii.eqb c d
  || (is_upper c && (N_of_ascii c + 32 =? N_of_ascii d)%N)
  || (is_upper d && (N_of_ascii d + 32 =? N_of_ascii c)%N).

(** Case-insensitive equality of strings, character by character. *)
Fixpoint caseless_eqb (s t : string) : bool :=
  match s, t with
  | EmptyString, EmptyString => true
  | String c s', String d t' => same_letter c d && caseless_eqb s' t'
  | _, _ => false
  end.

Fixpoint no_upper (s : string) : bool :=
  match s with
  | EmptyString => true
  | String c s' => negb (is_upper c) && no_upper s'
  end.

(** * model_builder.py *)

Module model_builder.

Inductive Weights : Type := IMAGENET1K_V1.

(** The framework layers the three topologies are assembled from. *)
Inductive Layer : Type :=
| Conv2d (in_channels out_channels kernel padding : Z)
| ReLU
| MaxPool2d (kernel stride : Z)
| Flatten
| Linear (in_features out_features : Z)
| LazyLinear (out_features : Z)
| AdaptiveAvgPool2d (size : Z)
| Dropout (p : Q)
| ResNet18 (weights : Weights).

(** [nn.Sequential] *)
Definition Sequential := list Layer.

Definition simple_network : Sequential :=
  [ Conv2d 1 64 3 1; ReLU; MaxPool2d 2 2;
    Conv2d 64 64 3 1; ReLU; MaxPool2d 2 2;
    Conv2d 64 64 3 1; ReLU; MaxPool2d 2 2;
    Conv2d 64 64 3 1; ReLU; MaxPool2d 2 2;
    Flatten; Linear 576 576; ReLU; Linear 576 7 ].

Definition expanded_network : Sequential :=
  [ AdaptiveAvgPool2d 192;
    Conv2d 1 64 3 1; ReLU; MaxPool2d 2 2;
    Conv2d 64 64 3 1; ReLU; MaxPool2d 2 2;
    Conv2d 64 64 3 1; ReLU; MaxPool2d 2 2;
    Conv2d 64 64 3 1; ReLU; MaxPool2d 2 2;
    Conv2d 64 64 3 1; ReLU; MaxPool2d 2 2;
    Conv2d 64 64 3 1; ReLU; MaxPool2d 2 2;
    Flatten; Linear 576 576; ReLU; Linear 576 7 ].

(** The pretrained ResNet18 is an opaque framework layer. *)
Definition resnet_network : Sequential :=
  let net := ResNet18 IMAGENET1K_V1 in
  [ AdaptiveAvgPool2d 224; Conv2d 1 3 3 0;
    net;
    Flatten;
    LazyLinear 64; ReLU;
    Dropout (1 # 2);
    Linear 64 32; ReLU;
    Dropout (1 # 4);
    Linear 32 32; ReLU;
    Dropout (3 # 20);
    Linear 32 7 ].

Definition define_layers (name : string) : result Sequential :=
  let name := lower name in
  if String.eqb name "simple" then Ok simple_network
  else if String.eqb name "expanded" then Ok expanded_network
  else if String.eqb name "resnet" then Ok resnet_network
  else Raise (ValueError ("Model architecture " +:+ name +:+ " does not exist")).

Inductive Loss : Type := CrossEntropyLoss.
Definition define_loss : Loss := CrossEntropyLoss.

Inductive Optimizer : Type := Adam.
Definition define_optimizer : Optimizer := Adam.

End model_builder.

(** * main.py *)

(** ** Numbers *)

(** A framework float: the result of dividing tensors may be infinite or
    undefined instead of raising. *)
Inductive pyfloat : Type :=
| Finite (q : Q)
| PosInf
| NegInf
| NaN.

(** [tensor / int]: true division of an integer tensor by a Python int. *)
Definition tensor_div (c d : Z) : pyfloat :=
  if d =? 0 then
    (if c =? 0 then NaN else if 0 <? c then PosInf else NegInf)
  else Finite (inject_Z c / inject_Z d).

(** [int / int]: true division of Python ints. *)
Definition int_div (c d : Z) : result pyfloat :=
  if d =? 0 then Raise ZeroDivisionError else Ok (Finite (inject_Z c / inject_Z d)).

(** [x * 100] *)
Definition times100 (x : pyfloat) : pyfloat :=
  match x with
  | Finite q => Finite (q * 100)
  | other => other
  end.

(** [x >= y] *)
Definition float_ge (x y : pyfloat) : bool :=
  match x, y with
  | NaN, _ | _, NaN => false
  | PosInf, _ => true
  | _, NegInf => true
  | NegInf, _ => false
  | _, PosInf => false
  | Finite a, Finite b => Qle_bool b a
  end.

(** [x == 1] and the like on the command line's floats. *)
Definition num_eqb (x y : Q) : bool := Qeq_bool x y.

(** Cast to the framework's 32-bit [torch.int]. *)
Definition to_int32 (z : Z) : Z := (z + 2 ^ 31) mod 2 ^ 32 - 2 ^ 31.

(** ** Python sequences *)

(** Position of index [i] in a sequence of length [n]: negative indices
    count from the end, anything else out of range has no position. *)
Definition py_index (n : nat) (i : Z) : option nat :=
  if (0 <=? i) && (i <? Z.of_nat n) then Some (Z.to_nat i)
  else if (- Z.of_nat n <=? i) && (i <? 0) then Some (Z.to_nat (i + Z.of_nat n))
  else None.

(** [l[i]] *)
Definition getitem {A} (l : list A) (i : Z) : result A :=
  match py_index (length l) i with
  | Some k => match l !! k with Some x => Ok x | None => Raise IndexError end
  | None => Raise IndexError
  end.

(** [l[i] = x] *)
Definition setitem {A} (l : list A) (i : Z) (x : A) : result (list A) :=
  match py_index (length l) i with
  | Some k => Ok (<[k := x]> l)
  | None => Raise IndexError
  end.

(** [range(lo, hi)] *)
Definition py_range (lo hi : Z) : list Z :=
  map (fun k => lo + Z.of_nat k) (seq 0 (Z.to_nat (hi - lo))).

(** [sum(l)] *)
Definition py_sum (l : list Z) : Z := fold_left Z.add l 0.

(** Consecutive chunks of [n] elements, the last one possibly shorter;
    [fuel] bounds the number of chunks. *)
Fixpoint chunks {A} (fuel : nat) (n : nat) (l : list A) : list (list A) :=
  match fuel, l with
  | _, [] => []
  | O, _ => []
  | S fuel', _ => firstn n l :: chunks fuel' n (skipn n l)
  end.

(** Transposition of a rectangular nested list with rows of width [w]. *)
Fixpoint transpose {A} (w : nat) (m : list (list A)) : list (list A) :=
  match m with
  | [] => repeat [] w
  | row :: rest =>
      map (fun '(x, col) => x :: col) (combine row (transpose w rest))
  end.

Definition width {A} (m : list (list A)) : nat :=
  match m with
  | [] => O
  | row :: _ => length row
  end.

(** ** Decimal text *)

(** [str(z)] for an int. *)
Definition show_int (z : Z) : string := NilZero.string_of_int (Z.to_int z).

(** [int(token)] for a token of decimal text. *)
Definition read_int (token : string) : option Z :=
  option_map Z.of_int (NilZero.int_of_string token).

Definition is_space (c : ascii) : bool :=
  let n := N_of_ascii c in ((n =? 32) || ((9 <=? n) && (n <=? 13)))%N.

(** The maximal runs of non-blank characters of [s]; [cur] is the run being
    read, in reverse. *)
Fixpoint fields_from (cur : list ascii) (s : string) : list string :=
  let flush t := match cur with
                 | [] => t
                 | _ => string_of_list_ascii (rev cur) :: t
                 end in
  match s with
  | EmptyString => flush []
  | String c s' =>
      if is_space c then flush (fields_from [] s')
      else fields_from (c :: cur) s'
  end.

Definition fields (s : string) : list string := fields_from [] s.

(** The longest prefix of tokens that all read as ints. *)
Fixpoint read_ints (tokens : list string) : list Z :=
  match tokens with
  | [] => []
  | t :: rest =>
      match read_int t with
      | Some z => z :: read_ints rest
      | None => []
      end
  end.

(** [numpy.fromstring(s, dtype=int, sep=' ')]: blank-separated decimal ints;
    reading stops at the first token that is not one. *)
Definition fromstring (s : string) : list Z := read_ints (fields s).

(** [' '.join(tokens)] *)
Fixpoint join_spaces (tokens : list string) : string :=
  match tokens with
  | [] => ""
  | [t] => t
  | t :: rest => t +:+ " " +:+ join_spaces rest
  end.

(** [rows] consecutive rows of [cols] elements. *)
Fixpoint split_rows {A} (rows cols : nat) (v : list A) : list (list A) :=
  match rows with
  | O => []
  | S rows' => firstn cols v :: split_rows rows' cols (skipn cols v)
  end.

(** [numpy.reshape(v, (rows, cols))] *)
Definition reshape2 {A} (rows cols : nat) (v : list A) : result (list (list A)) :=
  if Nat.eqb (length v) (rows * cols)
  then Ok (split_rows rows cols v)
  else Raise (ValueError "cannot reshape array").

(** ** Data carried by the program *)

(** One image tensor: three nested axes of pixel values. *)
Definition Image := list (list (list Q)).

(** A row of the CSV data frame. *)
Record Row := mkRow { emotion : Z; pixels : string; Usage : string }.
Definition DataFrame := list Row.

(** A serialized parameter state. *)
Definition StateDict := list Z.

Inductive TransformOp : Type :=
| RandomRotation (degrees : Q)
| RandomResizedCrop (size : Z) (scale : Q * Q).

(** Fragments of formatted text. *)
Inductive frag : Type :=
| Text (s : string)
| IntVal (z : Z)
| FloatVal (x : pyfloat)
| Flag (b : bool).
Definition Message := list frag.

(** Records of a TensorBoard run. *)
Inductive TBEvent : Type :=
| AddImage (title : string)
| AddScalar (title : string) (value : pyfloat) (step : Z)
| AddText (title : string) (text : Message)
| AddGraph.

(** What a path of the file system holds. *)
Inductive Node : Type :=
| Directory
| CsvFile (df : DataFrame)
| CheckpointFile (sd : StateDict)
| RunData (events : list TBEvent)
| TextFile (content : Message)
| OtherFile.

(** Effects, in the order they happen. *)
Inductive Event : Type :=
| Print (m : Message)
| ReadFile (path : string)
| Mkdir (path : string)
| Saved (path : string) (sd : StateDict)
| Removed (path : string)
| RemovedTree (path : string)
| Renamed (src dst : string)
| Written (path : string)
| WriterOpened (path : string)
| WriterClosed (path : string)
| Summary.

Record World := mkWorld {
  cwd : string;
  fs : gmap string Node;
  trace : list Event;
  ticks : nat
}.

(** ** The state and exception monad *)

Definition M (A : Type) : Type := World -> result A * World.

Definition ret {A} (a : A) : M A := fun w => (Ok a, w).

Definition throw {A} (e : exn) : M A := fun w => (Raise e, w).

Definition bind {A B} (m : M A) (k : A -> M B) : M B :=
  fun w =>
    match m w with
    | (Ok a, w') => k a w'
    | (Raise e, w') => (Raise e, w')
    end.

Notation "x <- m ;; k" := (bind m (fun x => k))
  (at level 100, m at next level, right associativity).
Notation "m ;;; k" := (bind m (fun _ => k))
  (at level 100, right associativity).

(** [try: body except: handler] with a bare [except]. *)
Definition try_except {A} (body handler : M A) : M A :=
  fun w =>
    match body w with
    | (Ok a, w') => (Ok a, w')
    | (Raise _, w') => handler w'
    end.

Definition lift {A} (r : result A) : M A := fun w => (r, w).

Definition when (b : bool) (m : M unit) : M unit := if b then m else ret tt.

(** [for x in l: body x] *)
Fixpoint for_each {A} (l : list A) (body : A -> M unit) : M unit :=
  match l with
  | [] => ret tt
  | x :: rest => body x ;;; for_each rest body
  end.

(** [for x in l: acc = body acc x] *)
Fixpoint for_fold {A S} (l : list A) (acc : S) (body : S -> A -> M S) : M S :=
  match l with
  | [] => ret acc
  | x :: rest => acc' <- body acc x ;; for_fold rest acc' body
  end.

(** [[f x for x in l]] *)
Fixpoint for_map {A B} (l : list A) (f : A -> M B) : M (list B) :=
  match l with
  | [] => ret []
  | x :: rest => y <- f x ;; ys <- for_map rest f ;; ret (y :: ys)
  end.

Definition emit (e : Event) : M unit :=
  fun w => (Ok tt, mkWorld (cwd w) (fs w) (trace w ++ [e]) (ticks w)).

Definition set_fs (f : gmap string Node -> gmap string Node) : M unit :=
  fun w => (Ok tt, mkWorld (cwd w) (f (fs w)) (trace w) (ticks w)).

Definition get_fs : M (gmap string Node) := fun w => (Ok (fs w), w).

(** A fresh index into the framework's sources of randomness and time. *)
Definition tick : M nat :=
  fun w => (Ok (ticks w), mkWorld (cwd w) (fs w) (trace w) (S (ticks w))).

(** [print(...)] *)
Definition print (m : Message) : M unit := emit (Print m).

(** [os.getcwd()] *)
Definition getcwd : M string := fun w => (Ok (cwd w), w).

(** [f"{os.getcwd()}/rel"]; a relative path resolves to the same place. *)
Definition in_cwd (rel : string) : M string :=
  d <- getcwd ;; ret (d +:+ "/" +:+ rel).

(** ** File system *)

(** [os.path.exists] *)
Definition path_exists (p : string) : M bool :=
  m <- get_fs ;; ret (bool_decide (is_Some (m !! p))).

(** [p] itself or a path below it. *)
Definition under (p k : string) : bool :=
  String.eqb k p || String.prefix (p +:+ "/") k.

(** [os.mkdir] *)
Definition mkdir (p : string) : M unit :=
  m <- get_fs ;;
  match m !! p with
  | Some _ => throw (FileExistsError p)
  | None => set_fs (insert p Directory) ;;; emit (Mkdir p)
  end.

(** [shutil.rmtree] *)
Definition rmtree (p : string) : M unit :=
  m <- get_fs ;;
  match m !! p with
  | None => throw (FileNotFoundError p)
  | Some _ =>
      set_fs (filter (fun kv => under p (fst kv) = false)) ;;;
      emit (RemovedTree p)
  end.

(** [os.remove] *)
Definition remove (p : string) : M unit :=
  m <- get_fs ;;
  match m !! p with
  | None => throw (FileNotFoundError p)
  | Some _ => set_fs (delete p) ;;; emit (Removed p)
  end.

Definition moved (src dst k : string) : string :=
  if under src k
  then dst +:+ String.substring (String.length src) (String.length k - String.length src) k
  else k.

(** [os.rename] of a directory tree onto a free path. *)
Definition rename (src dst : string) : M unit :=
  m <- get_fs ;;
  match m !! src, m !! dst with
  | None, _ => throw (FileNotFoundError src)
  | Some _, Some _ => throw (FileExistsError dst)
  | Some _, None =>
      set_fs (fun m => list_to_map (map (fun kv => (moved src dst (fst kv), snd kv)) (map_to_list m))) ;;;
      emit (Renamed src dst)
  end.

(** [open(p, "w")] followed by writes and [close]. *)
Definition write_text (p : string) (content : Message) : M unit :=
  set_fs (insert p (TextFile content)) ;;; emit (Written p).

(** [pandas.read_csv] *)
Definition read_csv (p : string) : M DataFrame :=
  m <- get_fs ;;
  match m !! p with
  | Some (CsvFile df) => emit (ReadFile p) ;;; ret df
  | Some _ => throw (ValueError "cannot parse")
  | None => throw (FileNotFoundError p)
  end.

(** [torch.load] *)
Definition torch_load (p : string) : M StateDict :=
  m <- get_fs ;;
  match m !! p with
  | Some (CheckpointFile sd) => emit (ReadFile p) ;;; ret sd
  | Some _ => throw (RuntimeError "invalid checkpoint")
  | None => throw (FileNotFoundError p)
  end.

(** Whether [s] contains a path separator. *)
Fixpoint has_slash (s : string) : bool :=
  match s with
  | EmptyString => false
  | String c rest => Ascii.eqb c "/"%char || has_slash rest
  end.

(** The folder a path lies in: the part before its last separator, which is
    [os.path.dirname] of a path without doubled separators below the root. *)
Fixpoint dirname (p : string) : string :=
  match p with
  | EmptyString => EmptyString
  | String c rest => if has_slash rest then String c (dirname rest) else EmptyString
  end.

(** [torch.save]: the file is created or replaced inside its folder, which
    must exist; the folder is not created, and a directory at [p] is not
    replaced. *)
Definition torch_save (sd : StateDict) (p : string) : M unit :=
  m <- get_fs ;;
  match m !! dirname p with
  | Some Directory =>
      match m !! p with
      | Some Directory => throw (RuntimeError "File cannot be opened")
      | _ => set_fs (insert p (CheckpointFile sd)) ;;; emit (Saved p sd)
      end
  | _ => throw (RuntimeError "Parent directory does not exist")
  end.

(** ** The ML framework

    Tensor computation, random initialisation, shuffling, augmentation and
    the clock are not part of the repository; they are the fields of this
    record.  The [nat] argument is the index drawn with [tick]. *)

Import model_builder.

(** [NeuralNetwork] instance: the layer stack, loss and optimizer chosen by
    [model_builder] and the current parameters. *)
Record Network := mkNetwork {
  layers : Sequential;
  loss : Loss;
  optimizer : Optimizer;
  parameters : StateDict
}.

Record Framework := mkFramework {
  (** [torch.version.cuda] when [torch.cuda.is_available()] *)
  cuda : option string;
  (** freshly initialised parameters of a layer stack *)
  init_parameters : Sequential -> nat -> StateDict;
  (** whether [load_state_dict] accepts a state for a layer stack *)
  fits : Sequential -> StateDict -> bool;
  (** [torch.argmax(forward(images), axis=-1)]: one label per image *)
  argmax_forward : Network -> nat -> list Image -> list Z;
  (** one optimizer step: the new parameters and [loss.item()] *)
  step : Network -> nat -> list Image -> list Z -> StateDict * Q;
  (** the random order in which a shuffling loader visits [n] indices *)
  permutation : nat -> nat -> list nat;
  (** a composed random transformation applied to one image *)
  augment : list TransformOp -> nat -> Image -> result Image;
  (** whether Graphviz can render the graph image *)
  graphviz : bool;
  (** [time.time_ns()] *)
  time_ns : nat -> Z
}.

(** ** FaceDataset *)

Record FaceDataset := mkFaceDataset {
  images : list Image;
  labels : list Z;
  transform : option (list TransformOp)
}.

(** [torch.swapaxes(t, 2, 3)] on a batch of images: the last two axes of
    every image. *)
Definition swapaxes_2_3 (t : list Image) : list Image :=
  map (fun img => map (fun plane => transpose (width plane) plane) img) t.

(** [torch.swapaxes(t, 1, 3)] on a batch of images: the first and last axis
    of every image. *)
Definition swapaxes_1_3 (t : list Image) : list Image :=
  map (fun img =>
         let a := transpose (width img) img in
         let b := map (fun plane => transpose (width plane) plane) a in
         transpose (width b) b) t.

(** [FaceDataset.__init__]; an omitted [mini], [maxi] or [rot] takes its
    default 1, 1 and 0. *)
Definition FaceDataset_init (imgs : list Image) (lbls : list Z)
    (mini maxi rot : option Q) : FaceDataset :=
  let mini := default 1%Q mini in
  let maxi := default 1%Q maxi in
  let rot := default 0%Q rot in
  let images := swapaxes_2_3 (swapaxes_1_3 imgs) in
  let labels := map to_int32 lbls in
  if num_eqb mini 1 && num_eqb maxi 1 && num_eqb rot 0 then
    mkFaceDataset images labels None
  else if num_eqb mini 1 && num_eqb maxi 1 then
    mkFaceDataset images labels (Some [RandomRotation rot])
  else if num_eqb rot 0 then
    mkFaceDataset images labels (Some [RandomResizedCrop 48 (mini, maxi)])
  else
    mkFaceDataset images labels
      (Some [RandomResizedCrop 48 (mini, maxi); RandomRotation rot]).

(** [FaceDataset.__len__] *)
Definition FaceDataset_len (ds : FaceDataset) : Z := Z.of_nat (length (labels ds)).

(** [FaceDataset.__getitem__] *)
Definition FaceDataset_getitem (fw : Framework) (ds : FaceDataset) (idx : Z)
    : M (Image * Z) :=
  img <- lift (getitem (images ds) idx) ;;
  img <- match transform ds with
         | None => ret img
         | Some t => k <- tick ;; lift (augment fw t k img)
         end ;;
  lbl <- lift (getitem (labels ds) idx) ;;
  ret (img, lbl).

(** ** DataLoader *)

Record DataLoader := mkDataLoader { dl_dataset : FaceDataset; batch_size : Z }.

(** A batch: the stacked images and the stacked labels. *)
Definition Batch := (list Image * list Z)%type.

(** [DataLoader(dataset, batch_size=batch, shuffle=True)] *)
Definition DataLoader_init (ds : FaceDataset) (batch : Z) : result DataLoader :=
  if batch <=? 0 then Raise (ValueError "batch_size should be a positive integer value")
  else Ok (mkDataLoader ds batch).

(** [len(dataloader)]: the number of batches, the last one possibly partial. *)
Definition DataLoader_len (dl : DataLoader) : Z :=
  (FaceDataset_len (dl_dataset dl) + batch_size dl - 1) / batch_size dl.

Definition collate (samples : list (Image * Z)) : Batch :=
  (map fst samples, map snd samples).

(** The index groups of one pass over the loader, in shuffled order. *)
Definition index_batches (fw : Framework) (dl : DataLoader) : M (list (list nat)) :=
  k <- tick ;;
  let n := length (labels (dl_dataset dl)) in
  ret (chunks n (Z.to_nat (batch_size dl)) (permutation fw k n)).

Definition fetch (fw : Framework) (dl : DataLoader) (idxs : list nat) : M Batch :=
  samples <- for_map idxs (fun i => FaceDataset_getitem fw (dl_dataset dl) (Z.of_nat i)) ;;
  ret (collate samples).

(** [iter(dataloader).__next__()] *)
Definition first_batch (fw : Framework) (dl : DataLoader) : M Batch :=
  groups <- index_batches fw dl ;;
  match groups with
  | [] => throw StopIteration
  | g :: _ => fetch fw dl g
  end.

(** ** SummaryWriter *)

Record SummaryWriter := mkWriter { log_dir : string }.

(** [SummaryWriter(rel)]: the run directory is created when missing. *)
Definition SummaryWriter_init (rel : string) : M SummaryWriter :=
  p <- in_cwd rel ;;
  m <- get_fs ;;
  match m !! p with
  | Some _ => ret tt
  | None => set_fs (insert p (RunData []))
  end ;;;
  emit (WriterOpened p) ;;;
  ret (mkWriter p).

Definition record_event (ev : TBEvent) (n : Node) : Node :=
  match n with
  | RunData evs => RunData (evs ++ [ev])
  | other => other
  end.

Definition writer_add (writer : SummaryWriter) (ev : TBEvent) : M unit :=
  set_fs (alter (record_event ev) (log_dir writer)).

Definition writer_close (writer : SummaryWriter) : M unit :=
  emit (WriterClosed (log_dir writer)).

(** ** NeuralNetwork *)

(** [NeuralNetwork.__init__]: the layer stack comes from a call of
    [model_builder.define_layers] with no argument. *)
Definition NeuralNetwork (fw : Framework) (k : nat) : result Network :=
  match call1 "define_layers" define_layers [] with
  | Ok layers =>
      Ok (mkNetwork layers define_loss define_optimizer (init_parameters fw layers k))
  | Raise e => Raise e
  end.

(** The type of a network constructor, so that the harness below can be
    studied for any behaviour of the construction. *)
Definition Constructor := Framework -> nat -> result Network.

(** [model.load_state_dict(sd)] *)
Definition load_state_dict (fw : Framework) (model : Network) (sd : StateDict)
    : result Network :=
  if fits fw (layers model) sd
  then Ok (mkNetwork (layers model) (loss model) (optimizer model) sd)
  else Raise (RuntimeError "Error(s) in loading state_dict").

(** [model.state_dict()] *)
Definition state_dict (model : Network) : StateDict := parameters model.

(** [NeuralNetwork.predict] on a batch. *)
Definition predict (fw : Framework) (model : Network) (imgs : list Image) : M (list Z) :=
  k <- tick ;; ret (argmax_forward fw model k imgs).

(** [NeuralNetwork.optimize] on a batch: the updated network and its loss. *)
Definition optimize (fw : Framework) (model : Network) (imgs : list Image)
    (lbls : list Z) : M (Network * Q) :=
  k <- tick ;;
  let '(sd, l) := step fw model k imgs lbls in
  ret (mkNetwork (layers model) (loss model) (optimizer model) sd, l).

(** ** dataset_details *)

(** [counts[label] += 1] *)
Definition bump (counts : list Z) (label : Z) : result (list Z) :=
  match getitem counts label with
  | Ok c => setitem counts label (c + 1)
  | Raise e => Raise e
  end.

Fixpoint count_labels (counts : list Z) (lbls : list Z) : result (list Z) :=
  match lbls with
  | [] => Ok counts
  | label :: rest =>
      match bump counts label with
      | Ok counts' => count_labels counts' rest
      | Raise e => Raise e
      end
  end.

(** [counts[i] / total * 100] *)
Definition share (counts : list Z) (i total : Z) : result pyfloat :=
  match getitem counts i with
  | Ok c =>
      match int_div c total with
      | Ok x => Ok (times100 x)
      | Raise e => Raise e
      end
  | Raise e => Raise e
  end.

Definition class_names : list string :=
  ["Angry"; "Disgust"; "Fear"; "Happy"; "Sad"; "Surprise"; "Neutral"].

(** The text printed by [dataset_details], one line per class. *)
Fixpoint details_lines (counts : list Z) (total : Z) (classes : list (Z * string))
    : result Message :=
  match classes with
  | [] => Ok []
  | (i, cls) :: rest =>
      match getitem counts i with
      | Raise e => Raise e
      | Ok c =>
          match share counts i total with
          | Raise e => Raise e
          | Ok pct =>
              match details_lines counts total rest with
              | Raise e => Raise e
              | Ok more => Ok (Text cls :: IntVal c :: FloatVal pct :: more)
              end
          end
      end
  end.

Definition dataset_details (title : string) (lbls : list Z) : M Z :=
  counts <- lift (count_labels [0; 0; 0; 0; 0; 0; 0] lbls) ;;
  let total := py_sum counts in
  body <- lift (details_lines counts total (combine (py_range 0 7) class_names)) ;;
  print (Text title :: Text " Dataset: " :: IntVal total :: body) ;;;
  ret total.

(** ** data_image *)

Definition data_image (fw : Framework) (dl : DataLoader) (writer : SummaryWriter)
    (title : string) : M unit :=
  b <- first_batch fw dl ;;
  writer_add writer (AddImage title).

(** ** test *)

(** [(label == prediction).sum()] *)
Definition count_equal (lbls preds : list Z) : Z :=
  Z.of_nat (length (filter (fun lp => fst lp =? snd lp) (combine lbls preds))).

Definition test (fw : Framework) (model : Network) (batch : Z) (dl : DataLoader)
    : M pyfloat :=
  groups <- index_batches fw dl ;;
  correct <- for_fold groups 0 (fun correct g =>
    b <- fetch fw dl g ;;
    preds <- predict fw model (fst b) ;;
    ret (correct + count_equal (snd b) preds)) ;;
  let denominator := DataLoader_len dl * batch in
  match groups with
  | [] => x <- lift (int_div correct denominator) ;; ret (times100 x)
  | _ => ret (times100 (tensor_div correct denominator))
  end.

(** ** prepare_data *)

(** [numpy.zeros(shape=(n, 48, 48))] *)
Definition zeros (n : nat) : list (list (list Z)) := repeat (repeat (repeat 0 48) 48) n.

Fixpoint fill_images (imgs : list (list (list Z))) (rows : list (Z * Row))
    : result (list (list (list Z))) :=
  match rows with
  | [] => Ok imgs
  | (i, row) :: rest =>
      let image := fromstring (pixels row) in
      match reshape2 48 48 image with
      | Raise e => Raise e
      | Ok image =>
          match setitem imgs i image with
          | Raise e => Raise e
          | Ok imgs' => fill_images imgs' rest
          end
      end
  end.

(** [enumerate(l)] *)
Definition enumerate {A} (l : list A) : list (Z * A) :=
  combine (py_range 0 (Z.of_nat (length l))) l.

Definition prepare_data (data : DataFrame) : result (list Image * list Z) :=
  let images := zeros (length data) in
  let labels := map emotion data in
  match fill_images images (enumerate data) with
  | Raise e => Raise e
  | Ok images =>
      let images := map (map (map (fun v => [v]))) images in
      let images := map (map (map (map (fun v => (inject_Z v / 255)%Q)))) images in
      Ok (images, labels)
  end.

(** ** parameter_text_generator *)

(** The parsed command line, the module-level variable [a] of the script. *)
Record Args := mkArgs {
  arg_name : string;
  arg_epoch : Z;
  arg_batch : Z;
  arg_load : bool;
  arg_attempts : Z;
  arg_min : Q;
  arg_max : Q;
  arg_rot : Q
}.

(** [parameter_text_generator] reads the module-level [a], which exists only
    when the file runs as a script. *)
Definition parameter_text_generator (a : option Args) (accuracy : pyfloat) : M unit :=
  match a with
  | None => throw (NameError "a")
  | Some a =>
      p <- in_cwd ("ModelParameters/" +:+ arg_name a +:+ ".txt") ;;
      m <- get_fs ;;
      d <- in_cwd "ModelParameters" ;;
      match m !! d with
      | None => throw (FileNotFoundError p)
      | Some _ =>
          k <- tick ;;
          write_text p
            [ Text "Accuracy Rate & Device: "; FloatVal accuracy;
              Text "Name of the model: "; Text (arg_name a);
              Text "Number of training epochs: "; IntVal (arg_epoch a);
              Text "Training and testing batch size: "; IntVal (arg_batch a);
              Text "Minimum rescaling size of training data: "; FloatVal (Finite (arg_min a));
              Text "Maximum rescaling size of training data: "; FloatVal (Finite (arg_max a));
              Text "Maximum rotation of training data: "; FloatVal (Finite (arg_rot a));
              Text "Timestamp: "; IntVal (Z.of_nat k);
              if arg_load a then Text "Name of Model Loaded : True"
              else Text "Model is an original." ]
      end
  end.

(** ** main *)

Section Harness.

(** The framework, the constructor used for [NeuralNetwork()] and the
    module-level [a]. *)
Variable fw : Framework.
Variable construct : Constructor.
Variable a : option Args.

(** [NeuralNetwork()] *)
Definition new_network : M Network :=
  k <- tick ;; lift (construct fw k).

(** [loss / len(dataloader)] for a Python float and an int. *)
Definition mean_loss (total : Q) (dl : DataLoader) : M pyfloat :=
  if DataLoader_len dl =? 0 then throw ZeroDivisionError
  else ret (Finite (total / inject_Z (DataLoader_len dl))).

(** One epoch: every batch of a fresh pass is optimized on. *)
Definition train_epoch (model : Network) (dl : DataLoader) : M (Network * Q) :=
  groups <- index_batches fw dl ;;
  for_fold groups (model, 0%Q) (fun st g =>
    b <- fetch fw dl g ;;
    r <- optimize fw (fst st) (fst b) (snd b) ;;
    ret (fst r, (snd st + snd r)%Q)).

(** Lines 291 to 303: training of a new model. *)
Definition train (name : string) (epochs batch : Z) (model : Network)
    (dl : DataLoader) (writer : SummaryWriter) : M Network :=
  print [Text "Training '"; Text name; Text "' for "; IntVal epochs;
         Text " epochs with batch size "; IntVal batch] ;;;
  st <- for_fold (py_range 0 epochs) (model, None) (fun st epoch =>
    shown <- match snd st with
             | Some l => x <- mean_loss l dl ;; ret (FloatVal x)
             | None => ret (Text "N/A")
             end ;;
    print [Text "Epoch "; IntVal (epoch + 1); Text "/"; IntVal epochs;
           Text " | Loss = "; shown] ;;;
    r <- train_epoch (fst st) dl ;;
    x <- mean_loss (snd r) dl ;;
    writer_add writer (AddScalar "Training Loss" x epoch) ;;;
    ret (fst r, Some (snd r))) ;;
  match snd st with
  | Some l =>
      x <- mean_loss l dl ;;
      print [Text "Training '"; Text name; Text "' complete - Final loss = "; FloatVal x] ;;;
      ret (fst st)
  | None => throw (NameError "loss")
  end.

(** Lines 272 to 287: the model to work with and whether it is new. *)
Definition obtain_model (name : string) (load : bool) : M (Network * bool) :=
  p <- in_cwd ("Models/" +:+ name +:+ ".pt") ;;
  loaded <-
    (if load then
       e <- path_exists p ;;
       if negb e then
         print [Text "Model '"; Text name; Text ".pt' does not exist to load, will build new model instead."] ;;;
         ret None
       else
         try_except
           (print [Text "Loading '"; Text name; Text "'..."] ;;;
            model <- new_network ;;
            sd <- torch_load p ;;
            model <- lift (load_state_dict fw model sd) ;;
            print [Text "Loaded '"; Text name; Text "'."] ;;;
            ret (Some model))
           (print [Text "Model to load has different structure than 'model_builder'.py, cannot load, building new model."] ;;;
            ret None)
     else ret None) ;;
  match loaded with
  | Some model => ret (model, false)
  | None => model <- new_network ;; ret (model, true)
  end.

(** What the comparison with an existing checkpoint decides. *)
Inductive Verdict : Type := KeepExisting | SaveNew.

(** Lines 324 to 326: the checkpoint at [p] is loaded into a newly
    constructed network and measured on the test data. *)
Definition measure_existing (p : string) (batch : Z) (dl : DataLoader) : M pyfloat :=
  existing <- new_network ;;
  sd <- torch_load p ;;
  existing <- lift (load_state_dict fw existing sd) ;;
  test fw existing batch dl.

Definition exists_message (name : string) : Message :=
  [Text "Model '"; Text name; Text ".pt' already exists, loading and checking if new model is better..."].

(** Lines 321 to 337: the comparison with an existing checkpoint of the
    same name; everything after the first [print] is inside the [try]. *)
Definition compare_existing (name : string) (load : bool) (batch : Z)
    (dl : DataLoader) (writer : SummaryWriter) (accuracy : pyfloat) : M Verdict :=
  p <- in_cwd ("Models/" +:+ name +:+ ".pt") ;;
  e <- path_exists p ;;
  if negb load && e then
    print (exists_message name) ;;;
    try_except
      (existing_accuracy <- measure_existing p batch dl ;;
       if float_ge existing_accuracy accuracy then
         print [Text "Existing '"; Text name; Text ".pt' has better accuracy score of ";
                FloatVal existing_accuracy; Text "%, not saving new model."] ;;;
         writer_close writer ;;;
         runs <- in_cwd "runs/Current" ;;
         rmtree runs ;;;
         ret KeepExisting
       else
         print [Text "Existing '"; Text name; Text ".pt' has worse accuracy score of ";
                FloatVal existing_accuracy; Text "%, overwriting with new model."] ;;;
         ret SaveNew)
      (print [Text "Model to load has different structure 'model_builder'.py, cannot load, will save the new model."] ;;;
       ret SaveNew)
  else ret SaveNew.

(** Lines 338 to 363: saving the model, its graph, its run data and its
    parameter text. *)
Definition save_new (name : string) (model : Network) (dl : DataLoader)
    (writer : SummaryWriter) (accuracy : pyfloat) : M unit :=
  p <- in_cwd ("Models/" +:+ name +:+ ".pt") ;;
  torch_save (state_dict model) p ;;;
  img <- first_batch fw dl ;;
  writer_add writer AddGraph ;;;
  graphs <- in_cwd "Graphs" ;;
  e <- path_exists graphs ;;
  when (negb e) (mkdir graphs) ;;;
  try_except
    (k <- tick ;;
     g <- in_cwd ("Graphs/" +:+ name) ;;
     write_text g [Text "digraph"] ;;;
     (if graphviz fw then set_fs (insert (g +:+ ".png") OtherFile) ;;; emit (Written (g +:+ ".png"))
      else throw (RuntimeError "failed to execute dot")) ;;;
     remove g)
    (ret tt) ;;;
  writer_close writer ;;;
  old <- in_cwd ("runs/" +:+ name) ;;
  e <- path_exists old ;;
  when e (rmtree old) ;;;
  current <- in_cwd "runs/Current" ;;
  rename current old ;;;
  params <- in_cwd "ModelParameters" ;;
  e <- path_exists params ;;
  when (negb e) (mkdir params) ;;;
  parameter_text_generator a accuracy.

(** Lines 317 to 363: the model folder is ensured, the new model is
    compared with an existing checkpoint and, unless that one is kept
    (the [continue] of line 333), saved. *)
Definition persist (name : string) (load : bool) (batch : Z) (model : Network)
    (dl : DataLoader) (writer : SummaryWriter) (accuracy : pyfloat) : M unit :=
  models <- in_cwd "Models" ;;
  e <- path_exists models ;;
  when (negb e) (mkdir models) ;;;
  verdict <- compare_existing name load batch dl writer accuracy ;;
  match verdict with
  | KeepExisting => ret tt
  | SaveNew => save_new name model dl writer accuracy
  end.

(** The body of the attempt loop, lines 269 to 363; [att] is the number of
    attempts after line 267. *)
Definition attempt_body (name : string) (epochs batch : Z) (load : bool) (att : Z)
    (training_data testing_data : FaceDataset) (testing_total : Z)
    (attempt : Z) : M unit :=
  when (1 <? att)
    (print [Text "Training attempt "; IntVal (attempt + 1); Text " of "; IntVal att]) ;;;
  writer <- SummaryWriter_init "runs/Current" ;;
  mn <- obtain_model name load ;;
  let model := fst mn in
  let no_model := snd mn in
  dataloader <- lift (DataLoader_init training_data batch) ;;
  data_image fw dataloader writer "Training Sample" ;;;
  model <- (if no_model && (0 <? epochs)
            then train name epochs batch model dataloader writer
            else ret model) ;;
  dataloader <- lift (DataLoader_init testing_data batch) ;;
  data_image fw dataloader writer "Testing Sample" ;;;
  k0 <- tick ;;
  accuracy <- test fw model batch dataloader ;;
  k1 <- tick ;;
  per_image <- lift (int_div (time_ns fw k1 - time_ns fw k0) testing_total) ;;
  let inference_time :=
    match per_image with Finite q => Finite (q / 1000000) | other => other end in
  writer_add writer (AddText "Accuracy" [FloatVal accuracy; Text "%"]) ;;;
  writer_add writer (AddText "Average Inference Time" [FloatVal inference_time; Text " ms"]) ;;;
  emit Summary ;;;
  print [Text "Accuracy = "; FloatVal accuracy; Text "%"] ;;;
  print [Text "Average Inference Time: "; FloatVal inference_time; Text " ms"] ;;;
  persist name load batch model dataloader writer accuracy.

(** The two texts [main] starts with. *)
Definition banner (d : string) : Message :=
  [Text "Face Recognition Deep Learning"; Text "Run 'tensorboard --logdir=runs' in '";
   Text d; Text "' to see data."].

Definition refusal : Message :=
  [Text "Cannot name the model 'Current' as that name is used for the current TensorBoard run."].

(** The number of attempts after lines 266 and 267. *)
Definition attempts (load : bool) (att : Z) : Z :=
  if load || (att <? 1) then 1 else att.

Definition main_with (name : string) (epochs batch : Z) (load : bool)
    (mini maxi rot : Q) (att : Z) : M unit :=
  d <- getcwd ;;
  print (banner d) ;;;
  if String.eqb name "Current" then
    print refusal
  else
    print (match cuda fw with
           | Some v => [Text "Running on GPU with CUDA "; Text v; Text "."]
           | None => [Text "Running on CPU."]
           end) ;;;
    print [Text "Loading data..."] ;;;
    csv <- in_cwd "Data.csv" ;;
    df <- read_csv csv ;;
    train <- lift (prepare_data (filter (fun r => String.eqb (Usage r) "Training" = true) df)) ;;
    tests <- lift (prepare_data (filter (fun r => String.eqb (Usage r) "Training" = false) df)) ;;
    let training_data :=
      FaceDataset_init (fst train) (snd train) (Some mini) (Some maxi) (Some rot) in
    let testing_data := FaceDataset_init (fst tests) (snd tests) None None None in
    dataset_details "Training" (snd train) ;;;
    testing_total <- dataset_details "Testing" (snd tests) ;;
    let att := attempts load att in
    for_each (py_range 0 att)
      (attempt_body name epochs batch load att training_data testing_data testing_total).

End Harness.

(** [main] of the repository: the harness with the repository's
    [NeuralNetwork]. *)
Definition main (fw : Framework) (a : option Args) := main_with fw NeuralNetwork a.

(** The script entry point: [main] called on the parsed command line. *)
Definition script (fw : Framework) (a : Args) : M unit :=
  main fw (Some a) (arg_name a) (arg_epoch a) (arg_batch a) (arg_load a)
    (arg_min a) (arg_max a) (arg_rot a) (arg_attempts a).

(** * Specification vocabulary

    Predicates and measures in which the properties below are stated. *)

(** ** Text *)

Definition all_chars : list ascii := map ascii_of_nat (seq 0 256).

(** A string without blanks. *)
Fixpoint solid (s : string) : bool :=
  match s with
  | EmptyString => true
  | String c s' => negb (is_space c) && solid s'
  end.

(** A token: not empty and without blanks. *)
Definition is_token (s : string) : Prop := s <> "" /\ solid s = true.

(** ** Labels and images *)

(** The number of labels equal to class [c]. *)
Definition occurrences (c : Z) (lbls : list Z) : Z :=
  Z.of_nat (count_occ Z.eq_dec lbls c).

(** An emotion label: one of the seven classes. *)
Definition in_classes (l : Z) : Prop := 0 <= l <= 6.

(** The 'pixels' entry of a row is the text of exactly 2304 integers
    between 0 and 255, separated by single blanks. *)
Definition pixel_row_ok (r : Row) : Prop :=
  exists vs, pixels r = join_spaces (map show_int vs) /\
             length vs = 2304%nat /\
             Forall (fun v => 0 <= v <= 255) vs.

(** A 48 x 48 x 1 image with every value between 0 and 1. *)
Definition image_ok (img : Image) : Prop :=
  length img = 48%nat /\
  Forall (fun row => length row = 48%nat /\
                     Forall (fun px => exists q, px = [q] /\ (0 <= q <= 1)%Q) row) img.

(** The 48 x 48 grid read from the pixel text of a row. *)
Definition grid (r : Row) : list (list Z) := split_rows 48 48 (fromstring (pixels r)).

(** ** Effects *)

(** A computation that raises in every world. *)
Definition fails {A} (m : M A) : Prop := forall w, exists e, fst (m w) = Raise e.

(** [frame allowed related w w']: from [w] to [w'] the working directory is
    the same, the file systems are [related], and the trace has grown by
    [allowed] events only. *)
Definition frame (allowed : Event -> Prop)
    (related : gmap string Node -> gmap string Node -> Prop) (w w' : World) : Prop :=
  cwd w' = cwd w /\
  related (fs w) (fs w') /\
  exists evs, trace w' = trace w ++ evs /\ Forall allowed evs.

(** A computation that stays within a frame, whatever it returns. *)
Definition keeps (allowed : Event -> Prop)
    (related : gmap string Node -> gmap string Node -> Prop) {A} (m : M A) : Prop :=
  forall w, frame allowed related w (snd (m w)).

(** The relations on file systems that frames are built from. *)
Definition fs_preorder (related : gmap string Node -> gmap string Node -> Prop) : Prop :=
  (forall m, related m m) /\
  (forall m1 m2 m3, related m1 m2 -> related m2 m3 -> related m1 m3).

Definition any_fs (m m' : gmap string Node) : Prop := True.
Definition any_event (e : Event) : Prop := True.

Definition is_open (e : Event) : bool :=
  match e with WriterOpened _ => true | _ => false end.

Definition is_save (e : Event) : bool :=
  match e with Saved _ _ => true | _ => false end.

Definition no_open (e : Event) : Prop := is_open e = false.
Definition no_save (e : Event) : Prop := is_save e = false.

(** The number of attempts begun in a stretch of the trace: every pass of
    the attempt loop starts by opening the run writer (line 271) and
    nothing else opens one. *)
Fixpoint attempts_begun (evs : list Event) : nat :=
  match evs with
  | [] => O
  | e :: rest => if is_open e then S (attempts_begun rest) else attempts_begun rest
  end.

(** The events recorded from world [w] to world [w']. *)
Definition events_since (w w' : World) : list Event :=
  skipn (length (trace w)) (trace w').

(** A computation that always returns normally. *)
Definition total {A} (m : M A) : Prop := forall w, exists a, fst (m w) = Ok a.

(** A computation that begins exactly [n] attempts, whatever it returns. *)
Definition counts {A} (n : nat) (m : M A) : Prop :=
  forall w, exists evs,
    trace (snd (m w)) = trace w ++ evs /\ attempts_begun evs = n.

(** A computation that begins at most [n] attempts, and exactly [n] when it
    returns normally. *)
Definition begins {A} (n : nat) (m : M A) : Prop :=
  forall w, exists evs,
    trace (snd (m w)) = trace w ++ evs /\
    (attempts_begun evs <= n)%nat /\
    ((exists a, fst (m w) = Ok a) -> attempts_begun evs = n).

(** * Concrete inputs

    A small framework, data set and file system on which the definitions
    above are run. *)

Module Sample.

(** The first pixel of an image, read back as the integer it was scaled
    from. *)
Definition first_pixel (img : Image) : Z :=
  match img with
  | ((q :: _) :: _) :: _ => Qfloor (q * 255)
  | _ => 0
  end.

(** A framework whose networks predict the first pixel plus their first
    parameter, so that a parameter 0 is right on images whose first pixel
    is their label; it does not shuffle or augment. *)
Definition fw0 : Framework := {|
  cuda := None;
  init_parameters := fun _ k => [Z.of_nat k + 1];
  fits := fun _ sd => Nat.eqb (length sd) 1;
  argmax_forward := fun net _ imgs =>
    map (fun img => first_pixel img + hd 0 (parameters net)) imgs;
  step := fun net _ _ _ => (parameters net, 1 # 2);
  permutation := fun _ n => seq 0 n;
  augment := fun _ _ img => Ok img;
  graphviz := true;
  time_ns := fun k => Z.of_nat k * 1000
|}.

(** A constructor that succeeds with the simple network. *)
Definition simple_constructor : Constructor :=
  fun fw k =>
    Ok (mkNetwork simple_network define_loss define_optimizer
          (init_parameters fw simple_network k)).

(** 2304 times the same pixel value, separated by blanks. *)
Definition pixel_values (v : Z) : list Z := repeat v 2304.
Definition pixel_text (v : Z) : string := join_spaces (map show_int (pixel_values v)).

Definition data : DataFrame :=
  [ mkRow 0 (pixel_text 0) "Training";
    mkRow 1 (pixel_text 1) "Training";
    mkRow 2 (pixel_text 2) "PublicTest";
    mkRow 3 (pixel_text 3) "PublicTest";
    mkRow 4 (pixel_text 4) "PrivateTest" ].

Definition args0 (load : bool) (attempts : Z) : Args :=
  mkArgs "Model" 1 2 load attempts 1 1 0.

(** A working directory that holds the data and nothing else. *)
Definition world0 : World :=
  mkWorld "/work" {[ "/work/Data.csv" := CsvFile data ]} [] 0.

(** Three one-pixel images whose pixel is their label over 255. *)
Definition tiny_images : list Image :=
  [ [[[0 # 255]]]; [[[1 # 255]]]; [[[2 # 255]]] ]%Q.
Definition tiny_labels : list Z := [0; 1; 2].
Definition tiny_data : FaceDataset :=
  FaceDataset_init tiny_images tiny_labels None None None.
Definition tiny_loader : DataLoader := mkDataLoader tiny_data 2.

(** A network that is right on every image of [tiny_data]. *)
Definition exact_network : Network :=
  mkNetwork simple_network define_loss define_optimizer [0].

(** A network that is wrong on every image of [tiny_data]. *)
Definition wrong_network : Network :=
  mkNetwork simple_network define_loss define_optimizer [5].

(** A working directory in the middle of an attempt: the run directory is
    open and a checkpoint of an exact network exists. *)
Definition world1 : World :=
  mkWorld "/work"
    (<[ "/work/Models/Model.pt" := CheckpointFile [0] ]>
     (<[ "/work/Models" := Directory ]>
      (<[ "/work/runs/Current" := RunData [] ]>
       {[ "/work/Data.csv" := CsvFile data ]})))
    [] 0.

Definition writer0 : SummaryWriter := mkWriter "/work/runs/Current".

(** The world left by loading and measuring that checkpoint, after the
    announcement that it exists. *)
Definition measured_world : World :=
  snd (measure_existing fw0 simple_constructor "/work/Models/Model.pt" 2 tiny_loader
         (snd (print (exists_message "Model") world1))).

End Sample.
(** * Further vocabulary *)

(** The bucket in which [dataset_details] counts a label between -7 and 6:
    a negative index counts from the end of the seven buckets. *)
Definition class_of (l : Z) : Z := l mod 7.

(** A label that is no index of the seven buckets. *)
Definition no_bucket (l : Z) : Prop := l < -7 \/ 6 < l.

(** The pixel text of a row reads as exactly 48 * 48 integers. *)
Definition has_2304 (r : Row) : bool :=
  Nat.eqb (length (fromstring (pixels r))) (48 * 48).

(** A height x width x 1 image as [prepare_data] lays it out: every pixel
    of the grid in a channel list of its own. *)
Definition channel_last (grid : list (list Q)) : Image :=
  map (map (fun q => [q])) grid.

(** A grid of [h] rows of [w] pixels, neither of them 0. *)
Definition rectangular (h w : nat) (grid : list (list Q)) : Prop :=
  length grid = h /\ Forall (fun row => length row = w) grid /\
  (0 < h)%nat /\ (0 < w)%nat.

(** The file systems that agree everywhere except, possibly, at path [p]. *)
Definition only_changes (p : string) (m m' : gmap string Node) : Prop :=
  forall k, k <> p -> m' !! k = m !! k.

(** Events that neither write nor remove anything. *)
Definition reads_or_prints (e : Event) : Prop :=
  match e with
  | Print _ | ReadFile _ => True
  | _ => False
  end.


(** The outcome of building a new network with random index [k]: the
    network together with [no_model = True], or the constructor's error. *)
Definition built_new (fw : Framework) (construct : Constructor) (k : nat)
    : result (Network * bool) :=
  match construct fw k with
  | Ok net => Ok (net, true)
  | Raise e => Raise e
  end.

(** ** Tensor shapes through the layer stacks

    The sizes follow the three formulas in the docstring of
    [define_layers]:
    convolutional size = (size - kernel + 2 * padding) / stride + 1,
    pooling size = (size + 2 * padding - kernel) / stride + 1,
    flatten size = channels * size^2. *)

Inductive Shape : Type :=
| Planes (channels height width : Z)
| Features (n : Z).

Definition conv_size (size kernel padding stride : Z) : Z :=
  (size - kernel + 2 * padding) / stride + 1.

Definition pool_size (size kernel padding stride : Z) : Z :=
  (size + 2 * padding - kernel) / stride + 1.

(** The shape a layer produces from the shape it is given, if it accepts
    it; [resnet_features] is the number of outputs of the pretrained
    ResNet18, which takes three channels. *)
Definition layer_shape (resnet_features : Z) (l : Layer) (s : Shape) : option Shape :=
  match l, s with
  | Conv2d cin cout k p, Planes c h w =>
      if c =? cin then Some (Planes cout (conv_size h k p 1) (conv_size w k p 1))
      else None
  | ReLU, s => Some s
  | Dropout _, s => Some s
  | MaxPool2d k st, Planes c h w =>
      Some (Planes c (pool_size h k 0 st) (pool_size w k 0 st))
  | AdaptiveAvgPool2d size, Planes c _ _ => Some (Planes c size size)
  | Flatten, Planes c h w => Some (Features (c * h * w))
  | Flatten, Features n => Some (Features n)
  | Linear i o, Features n => if n =? i then Some (Features o) else None
  | LazyLinear o, Features _ => Some (Features o)
  | ResNet18 _, Planes c _ _ => if c =? 3 then Some (Features resnet_features) else None
  | _, _ => None
  end.

Fixpoint network_shape (resnet_features : Z) (net : Sequential) (s : Shape)
    : option Shape :=
  match net with
  | [] => Some s
  | l :: rest =>
      match layer_shape resnet_features l s with
      | Some s' => network_shape resnet_features rest s'
      | None => None
      end
  end.

(** ** Training *)

(** The steps at which the "Training Loss" scalars of a run were added, in
    the order of the run. *)
Definition loss_steps (evs : list TBEvent) : list Z :=
  flat_map (fun ev => match ev with
                      | AddScalar title _ step =>
                          if String.eqb title "Training Loss" then [step] else []
                      | _ => []
                      end) evs.

(** Two networks that differ in their parameters at most. *)
Definition same_architecture (m m' : Network) : Prop :=
  layers m' = layers m /\ loss m' = loss m /\ optimizer m' = optimizer m.

(** ** Files that a computation leaves alone *)






(** * Properties *)

(** ** Strings *)

Lemma in_all_chars (c : ascii) : In c all_chars.
Proof.
  unfold all_chars. apply in_map_iff. exists (nat_of_ascii c). split.
  - apply ascii_nat_embedding.
  - apply in_seq. pose proof (nat_ascii_bounded c). lia.
Qed.

Lemma lower_char_same_letter (c d : ascii) :
  is_upper d = false -> Ascii.eqb (lower_char c) d = same_letter c d.
Proof.
  assert (H : forallb (fun c => forallb (fun d =>
              is_upper d || Bool.eqb (Ascii.eqb (lower_char c) d) (same_letter c d))
              all_chars) all_chars = true) by (vm_compute; reflexivity).
  intros Hd. rewrite forallb_forall in H.
  specialize (H c (in_all_chars c)). rewrite forallb_forall in H.
  specialize (H d (in_all_chars d)). rewrite Hd in H. simpl in H.
  apply Bool.eqb_prop in H. exact H.
Qed.

Lemma lower_caseless (s t : string) :
  no_upper t = true -> String.eqb (lower s) t = caseless_eqb s t.
Proof.
  revert t. induction s as [|c s IH]; intros [|d t]; simpl; try reflexivity.
  intros H. apply andb_prop in H as [Hd Ht].
  rewrite lower_char_same_letter by (now apply negb_true_iff).
  rewrite IH by assumption. reflexivity.
Qed.

(** ** model_builder.define_layers *)

(** C4: [define_layers] returns the simple, expanded or ResNet network
    exactly for the names that equal "simple", "expanded" or "resnet" up to
    case, and raises [ValueError] exactly for all the other names. *)
Theorem define_layers_names (name : string) :
  (define_layers name = Ok simple_network <-> caseless_eqb name "simple" = true) /\
  (define_layers name = Ok expanded_network <-> caseless_eqb name "expanded" = true) /\
  (define_layers name = Ok resnet_network <-> caseless_eqb name "resnet" = true) /\
  ((exists msg, define_layers name = Raise (ValueError msg)) <->
     caseless_eqb name "simple" = false /\
     caseless_eqb name "expanded" = false /\
     caseless_eqb name "resnet" = false) /\
  ((exists net, define_layers name = Ok net) \/
   (exists msg, define_layers name = Raise (ValueError msg))).
Proof.
  unfold define_layers; cbv zeta.
  rewrite <- !(lower_caseless name) by reflexivity.
  destruct (String.eqb_spec (lower name) "simple") as [Hs|Hs];
    [rewrite ?Hs|
     destruct (String.eqb_spec (lower name) "expanded") as [He|He];
     [rewrite ?He|
      destruct (String.eqb_spec (lower name) "resnet") as [Hr|Hr];
      [rewrite ?Hr|]]];
    simpl; repeat split; intros; eauto;
    repeat match goal with
           | H : exists _, _ |- _ => destruct H
           | H : _ /\ _ |- _ => destruct H
           end;
    discriminate.
Qed.

(** ** NeuralNetwork *)

(** C3: constructing the network never succeeds: [define_layers] is called
    without the architecture name it requires, which is a [TypeError]
    whatever the framework and the random state are. *)
Theorem NeuralNetwork_raises (fw : Framework) (k : nat) :
  NeuralNetwork fw k =
  Raise (TypeError "define_layers() missing 1 required positional argument").
Proof. reflexivity. Qed.

(** ** FaceDataset *)

Lemma to_int32_small (z : Z) : - 2 ^ 31 <= z < 2 ^ 31 -> to_int32 z = z.
Proof.
  intros H. unfold to_int32. rewrite Z.mod_small; lia.
Qed.

(** C5: with a rescaling range of (1, 1) and a rotation of 0, given or by
    default, no transform is stored, and [__getitem__] returns the stored
    image and the stored label at the index, without consulting the
    framework or changing the world; a transform is stored exactly when the
    range differs from (1, 1) or the rotation from 0. *)
Theorem FaceDataset_plain (fw : Framework) (imgs : list Image) (lbls : list Z)
    (mini maxi rot : option Q) (idx : Z) (w : World) :
  let ds := FaceDataset_init imgs lbls mini maxi rot in
  (default 1 mini == 1 -> default 1 maxi == 1 -> default 0 rot == 0 ->
     transform ds = None /\
     FaceDataset_getitem fw ds idx w =
       (match getitem (images ds) idx, getitem (labels ds) idx with
        | Ok img, Ok lbl => Ok (img, lbl)
        | Raise e, _ => Raise e
        | _, Raise e => Raise e
        end, w))%Q /\
  (transform ds <> None <->
     ~ (default 1 mini == 1 /\ default 1 maxi == 1)%Q \/ ~ (default 0 rot == 0)%Q) /\
  length (labels ds) = length lbls /\
  (forall k l, lbls !! k = Some l -> - 2 ^ 31 <= l < 2 ^ 31 -> labels ds !! k = Some l).
Proof.
  intros ds. subst ds. unfold FaceDataset_init, num_eqb.
  set (a := default 1%Q mini). set (b := default 1%Q maxi). set (c := default 0%Q rot).
  destruct (Qeq_bool a 1) eqn:Ha; destruct (Qeq_bool b 1) eqn:Hb;
    destruct (Qeq_bool c 0) eqn:Hc; simpl;
    repeat match goal with
           | H : Qeq_bool _ _ = true |- _ => apply Qeq_bool_iff in H
           | H : Qeq_bool _ _ = false |- _ => apply Qeq_bool_neq in H
           end.
  all: split; [intros Ea Eb Ec; try contradiction|].
  all: try (split; [reflexivity|
                    unfold FaceDataset_getitem, bind, lift, ret; simpl;
                    destruct (getitem _ idx); [destruct (getitem _ idx)|]; reflexivity]).
  all: split; [split; [intros H; tauto || (try congruence) | intros H; try discriminate; tauto]|].
  all: split; [apply length_map|].
  all: intros k l Hk Hl; rewrite list_lookup_fmap, Hk; simpl; f_equal;
       apply to_int32_small; exact Hl.
Qed.

(** ** test *)

(** C2: on three test examples that the network all predicts right, served
    in batches of two, [test] returns 75 and not the 100 percent of right
    predictions: the count of right predictions is divided by the number of
    batches times the batch size, which counts the partial last batch as a
    full one. *)
Theorem test_counts_partial_batch_as_full :
  FaceDataset_len Sample.tiny_data = 3 /\
  (forall k, count_equal (labels Sample.tiny_data)
               (argmax_forward Sample.fw0 Sample.exact_network k
                  (images Sample.tiny_data)) = 3) /\
  exists q, fst (test Sample.fw0 Sample.exact_network 2 Sample.tiny_loader Sample.world0)
            = Ok (Finite q) /\ (q == 75)%Q /\ ~ (q == 100)%Q.
Proof.
  split; [reflexivity|]. split; [intros k; reflexivity|].
  exists (300 # 4)%Q. split; [vm_compute; reflexivity|].
  split; [reflexivity|]. intros H. discriminate H.
Qed.

(** ** main *)

Lemma main_with_Current (fw : Framework) (construct : Constructor) (a : option Args)
    (epochs batch : Z) (load : bool) (mini maxi rot : Q) (att : Z) (w : World) :
  main_with fw construct a "Current" epochs batch load mini maxi rot att w =
  (Ok tt, mkWorld (cwd w) (fs w) (trace w ++ [Print (banner (cwd w)); Print refusal]) (ticks w)).
Proof.
  unfold main_with, bind, getcwd, print, emit. simpl.
  rewrite <- app_assoc. reflexivity.
Qed.

(** C10: called with the name "Current", [main] prints its banner and the
    refusal and returns; the file system, the working directory and the
    random state are unchanged and nothing else happens: no file is read,
    no network is constructed, trained or tested. *)
Theorem main_Current (fw : Framework) (a : option Args)
    (epochs batch : Z) (load : bool) (mini maxi rot : Q) (att : Z) (w : World) :
  main fw a "Current" epochs batch load mini maxi rot att w =
  (Ok tt, mkWorld (cwd w) (fs w) (trace w ++ [Print (banner (cwd w)); Print refusal]) (ticks w)).
Proof. unfold main. apply main_with_Current. Qed.

(** C6: with [load] set and no checkpoint to load, [main] does not go on
    with a newly built model: building it raises the [TypeError] of the
    constructor, which nothing catches.  The same happens when a checkpoint
    exists, after the failure inside the [try] has been caught. *)
Theorem main_load_raises :
  fst (main Sample.fw0 (Some (Sample.args0 true 1)) "Model" 1 2 true 1 1 0 1 Sample.world0)
    = Raise (TypeError "define_layers() missing 1 required positional argument") /\
  fst (main Sample.fw0 (Some (Sample.args0 true 1)) "Model" 1 2 true 1 1 0 1 Sample.world1)
    = Raise (TypeError "define_layers() missing 1 required positional argument").
Proof. split; vm_compute; reflexivity. Qed.

(** ** dataset_details *)

Lemma count_labels_spec (lbls : list Z) :
  Forall in_classes lbls ->
  forall a0 a1 a2 a3 a4 a5 a6,
  count_labels [a0; a1; a2; a3; a4; a5; a6] lbls =
  Ok [a0 + occurrences 0 lbls; a1 + occurrences 1 lbls; a2 + occurrences 2 lbls;
      a3 + occurrences 3 lbls; a4 + occurrences 4 lbls; a5 + occurrences 5 lbls;
      a6 + occurrences 6 lbls].
Proof.
  unfold occurrences.
  induction 1 as [|l lbls Hl _ IH]; intros; simpl count_labels.
  - simpl. repeat rewrite Z.add_0_r. reflexivity.
  - unfold in_classes in Hl.
    assert (Hc : l = 0 \/ l = 1 \/ l = 2 \/ l = 3 \/ l = 4 \/ l = 5 \/ l = 6) by lia.
    destruct Hc as [->|[->|[->|[->|[->|[->| ->]]]]]];
      cbn [bump getitem setitem py_index length]; simpl;
      rewrite IH; f_equal;
      repeat (apply (f_equal2 cons); [lia|]); reflexivity.
Qed.

Lemma occurrences_total (lbls : list Z) :
  Forall in_classes lbls ->
  occurrences 0 lbls + occurrences 1 lbls + occurrences 2 lbls + occurrences 3 lbls
  + occurrences 4 lbls + occurrences 5 lbls + occurrences 6 lbls
  = Z.of_nat (length lbls).
Proof.
  unfold occurrences.
  induction 1 as [|l lbls Hl _ IH]; [reflexivity|].
  unfold in_classes in Hl. simpl length. simpl count_occ.
  assert (Hc : l = 0 \/ l = 1 \/ l = 2 \/ l = 3 \/ l = 4 \/ l = 5 \/ l = 6) by lia.
  destruct Hc as [->|[->|[->|[->|[->|[->| ->]]]]]]; simpl; lia.
Qed.

(** For a non-empty list of labels in 0..6 every label is counted in the
    bucket of its class, no index is out of range, and the total that is
    printed and returned is the length of the list. *)
Lemma dataset_details_nonempty (title : string) (lbls : list Z) (w : World) :
  Forall in_classes lbls -> lbls <> [] ->
  exists counts,
    count_labels [0; 0; 0; 0; 0; 0; 0] lbls = Ok counts /\
    (forall c, in_classes c -> getitem counts c = Ok (occurrences c lbls)) /\
    py_sum counts = Z.of_nat (length lbls) /\
    exists body,
      dataset_details title lbls w =
      (Ok (Z.of_nat (length lbls)),
       mkWorld (cwd w) (fs w)
         (trace w ++ [Print (Text title :: Text " Dataset: "
                             :: IntVal (Z.of_nat (length lbls)) :: body)])
         (ticks w)).
Proof.
  intros Hin Hne.
  pose proof (count_labels_spec lbls Hin 0 0 0 0 0 0 0) as Hc.
  pose proof (occurrences_total lbls Hin) as Ht.
  eexists. split; [exact Hc|].
  assert (Hsum : py_sum [0 + occurrences 0 lbls; 0 + occurrences 1 lbls;
                         0 + occurrences 2 lbls; 0 + occurrences 3 lbls;
                         0 + occurrences 4 lbls; 0 + occurrences 5 lbls;
                         0 + occurrences 6 lbls] = Z.of_nat (length lbls))
    by (unfold py_sum; simpl; lia).
  split; [|split; [exact Hsum|]].
  - intros c Hcl. unfold in_classes in Hcl.
    assert (Hd : c = 0 \/ c = 1 \/ c = 2 \/ c = 3 \/ c = 4 \/ c = 5 \/ c = 6) by lia.
    destruct Hd as [->|[->|[->|[->|[->|[->| ->]]]]]]; reflexivity.
  - unfold dataset_details, bind, lift. rewrite Hc, Hsum.
    assert (Hpos : (Z.of_nat (length lbls) =? 0) = false).
    { apply Z.eqb_neq. destruct lbls; [contradiction|simpl; lia]. }
    unfold py_range, class_names. simpl combine.
    cbn [details_lines]. unfold share, int_div. rewrite Hpos.
    simpl.
    unfold print, emit, ret. simpl. eexists. reflexivity.
Qed.

(** C7: on the empty list of labels, whose elements are all in 0..6,
    [dataset_details] does not return the total 0: the percentage of the
    first class divides by the total and raises [ZeroDivisionError] before
    anything is printed. *)
Theorem dataset_details_empty (title : string) (w : World) :
  dataset_details title [] w = (Raise ZeroDivisionError, w).
Proof. reflexivity. Qed.

(** ** Decimal text *)

Lemma read_show_int (z : Z) : read_int (show_int z) = Some z.
Proof.
  unfold read_int, show_int. rewrite NilZero.isi.
  - simpl. f_equal. apply DecimalZ.of_to.
  - destruct z; simpl; try discriminate.
    intros [= H]. exact (Unsigned.to_uint_nonnil _ H).
  - destruct z; simpl; try discriminate.
    intros [= H]. exact (Unsigned.to_uint_nonnil _ H).
Qed.

Lemma solid_uint (d : uint) : solid (NilEmpty.string_of_uint d) = true.
Proof. induction d; simpl; auto. Qed.

Lemma show_int_token (z : Z) : is_token (show_int z).
Proof.
  unfold show_int, is_token.
  destruct (Z.to_int z) as [d|d]; simpl.
  - destruct d; simpl; (split; [discriminate|]); try reflexivity;
      apply solid_uint.
  - split; [discriminate|]. destruct d; simpl; try reflexivity; apply solid_uint.
Qed.

Lemma string_app_cons (c : ascii) (t s : string) :
  String c t +:+ s = String c (t +:+ s).
Proof. reflexivity. Qed.

Lemma string_app_nil (s : string) : "" +:+ s = s.
Proof. reflexivity. Qed.

Lemma fields_from_solid (t : string) (cur : list ascii) (s : string) :
  solid t = true ->
  fields_from cur (t +:+ s) = fields_from (rev (list_ascii_of_string t) ++ cur) s.
Proof.
  revert cur. induction t as [|c t IH]; intros cur H; simpl in H.
  - reflexivity.
  - apply andb_prop in H as [Hc Ht]. apply negb_true_iff in Hc.
    rewrite string_app_cons. simpl. rewrite Hc.
    rewrite IH by assumption. rewrite <- app_assoc. reflexivity.
Qed.

Lemma string_app_empty (t : string) : t +:+ "" = t.
Proof.
  induction t as [|c t IH]; [reflexivity|].
  rewrite string_app_cons, IH. reflexivity.
Qed.

Lemma rev_chars_nonempty (t : string) :
  t <> "" -> rev (list_ascii_of_string t) <> [].
Proof.
  destruct t as [|c t]; [congruence|]. simpl. intros _ H.
  apply app_eq_nil in H as [_ H]. discriminate.
Qed.

Lemma fields_from_blank (cur : list ascii) (s : string) :
  fields_from cur (String " " s) =
  match cur with
  | [] => fields_from [] s
  | _ => string_of_list_ascii (rev cur) :: fields_from [] s
  end.
Proof. destruct cur; reflexivity. Qed.

Lemma fields_join (tokens : list string) :
  Forall is_token tokens -> fields (join_spaces tokens) = tokens.
Proof.
  unfold fields. induction 1 as [|t ts [Hne Hs] Hts IH]; [reflexivity|].
  pose proof (rev_chars_nonempty t Hne) as Hr.
  destruct ts as [|t' ts].
  - simpl join_spaces. rewrite <- (string_app_empty t) at 1.
    rewrite fields_from_solid by assumption. rewrite app_nil_r. simpl.
    destruct (rev (list_ascii_of_string t)) eqn:E; [contradiction|].
    rewrite <- E, rev_involutive, string_of_list_ascii_of_string. reflexivity.
  - change (join_spaces (t :: t' :: ts)) with (t +:+ String " " (join_spaces (t' :: ts))).
    rewrite fields_from_solid by assumption. rewrite app_nil_r.
    rewrite fields_from_blank, IH.
    destruct (rev (list_ascii_of_string t)) eqn:E; [contradiction|].
    rewrite <- E, rev_involutive, string_of_list_ascii_of_string. reflexivity.
Qed.

Lemma read_ints_show (vs : list Z) : read_ints (map show_int vs) = vs.
Proof.
  induction vs as [|v vs IH]; simpl; [reflexivity|].
  rewrite read_show_int, IH. reflexivity.
Qed.

(** Blank-separated decimal text reads back as the integers it shows. *)
Lemma fromstring_join (vs : list Z) :
  fromstring (join_spaces (map show_int vs)) = vs.
Proof.
  unfold fromstring. rewrite fields_join.
  - apply read_ints_show.
  - induction vs as [|v vs IH]; simpl; constructor;
      [apply show_int_token | exact IH].
Qed.

(** ** prepare_data *)

Lemma split_rows_length {A} (rows cols : nat) (v : list A) :
  length (split_rows rows cols v) = rows.
Proof. revert v. induction rows; intros; simpl; auto. Qed.

Lemma split_rows_widths {A} (rows cols : nat) (v : list A) :
  length v = (rows * cols)%nat ->
  Forall (fun r => length r = cols) (split_rows rows cols v).
Proof.
  revert v. induction rows as [|rows IH]; intros v H; simpl; constructor.
  - rewrite length_firstn. simpl in H. lia.
  - apply IH. rewrite length_skipn. simpl in H. lia.
Qed.

Lemma split_rows_concat {A} (rows cols : nat) (v : list A) :
  length v = (rows * cols)%nat -> concat (split_rows rows cols v) = v.
Proof.
  revert v. induction rows as [|rows IH]; intros v H; simpl.
  - simpl in H. destruct v; [reflexivity|discriminate].
  - rewrite IH.
    + apply firstn_skipn.
    + rewrite length_skipn. simpl in H. lia.
Qed.

Lemma split_rows_Forall {A} (P : A -> Prop) (rows cols : nat) (v : list A) :
  Forall P v -> Forall (Forall P) (split_rows rows cols v).
Proof.
  revert v. induction rows as [|rows IH]; intros v H; simpl; constructor.
  - apply Forall_take. exact H.
  - apply IH. apply Forall_drop. exact H.
Qed.

Lemma fill_images_from (data : DataFrame) :
  Forall pixel_row_ok data ->
  forall done todo : list (list (list Z)),
  length todo = length data ->
  fill_images (done ++ todo)
    (combine (map (fun k => 0 + Z.of_nat k) (seq (length done) (length data))) data)
  = Ok (done ++ map grid data).
Proof.
  induction 1 as [|r data [vs [Hp [Hl Hv]]] _ IH]; intros done todo Hlen.
  - destruct todo; [|discriminate]. reflexivity.
  - destruct todo as [|t todo]; [discriminate|].
    cbn [length seq map combine fill_images].
    rewrite Hp, fromstring_join. unfold reshape2.
    replace (Nat.eqb (length vs) (48 * 48)) with true
      by (rewrite Hl; reflexivity).
    set (g := split_rows 48 48 vs).
    unfold setitem, py_index.
    replace ((0 <=? 0 + Z.of_nat (length done))
             && (0 + Z.of_nat (length done) <? Z.of_nat (length (done ++ t :: todo))))
      with true
      by (symmetry; apply andb_true_intro; split;
          [apply Z.leb_le; lia | apply Z.ltb_lt; rewrite length_app; simpl; lia]).
    replace (Z.to_nat (0 + Z.of_nat (length done))) with (length done) by lia.
    rewrite insert_app_r_alt by lia. rewrite Nat.sub_diag. simpl insert.
    change (done ++ g :: todo) with (done ++ [g] ++ todo).
    rewrite app_assoc.
    replace (S (length done)) with (length (done ++ [g]))
      by (rewrite length_app; simpl; lia).
    rewrite IH by (simpl in Hlen; lia).
    rewrite <- app_assoc. cbn [map app]. unfold grid at 2.
    rewrite Hp, fromstring_join. reflexivity.
Qed.

Lemma scaled_pixel_bounds (v : Z) :
  0 <= v <= 255 -> (0 <= inject_Z v / 255 <= 1)%Q.
Proof.
  intros H. unfold Qdiv, Qmult, Qinv, Qle, inject_Z. simpl. lia.
Qed.

Lemma flatten_scaled (g : list (list Z)) :
  concat (concat (map (map (map (fun v => (inject_Z v / 255)%Q)))
                    (map (map (fun v => [v])) g)))
  = map (fun v => (inject_Z v / 255)%Q) (concat g).
Proof.
  induction g as [|row g IH]; cbn [map concat]; [reflexivity|].
  rewrite concat_app, map_app, IH. f_equal.
  induction row as [|v row IHr]; cbn [map concat]; [reflexivity|].
  rewrite IHr. reflexivity.
Qed.

(** C9: when every 'pixels' entry is the text of exactly 2304 integers
    between 0 and 255, [prepare_data] returns one 48 x 48 x 1 image per row
    whose values are between 0 and 1 and are, in reading order, the pixel
    integers divided by 255, together with one label per row, the row's
    'emotion'. *)
Theorem prepare_data_shape (data : DataFrame) :
  Forall pixel_row_ok data ->
  exists imgs lbls,
    prepare_data data = Ok (imgs, lbls) /\
    length imgs = length data /\
    Forall image_ok imgs /\
    Forall2 (fun r img => forall vs, pixels r = join_spaces (map show_int vs) ->
               concat (concat img) = map (fun v => (inject_Z v / 255)%Q) vs)
            data imgs /\
    length lbls = length data /\
    lbls = map emotion data.
Proof.
  intros Hok. unfold prepare_data, enumerate, py_range.
  rewrite Z.sub_0_r, Nat2Z.id.
  pose proof (fill_images_from data Hok [] (zeros (length data))) as Hfill.
  simpl in Hfill. rewrite Hfill by apply repeat_length.
  eexists _, _. split; [reflexivity|].
  split; [rewrite !length_map; reflexivity|].
  split; [|split; [|split; [apply length_map|reflexivity]]].
  - rewrite !Forall_map. eapply Forall_impl; [exact Hok|].
    intros r [vs [Hp [Hl Hv]]]. unfold image_ok, grid.
    rewrite Hp, fromstring_join. rewrite !length_map, split_rows_length.
    split; [reflexivity|].
    rewrite !Forall_map.
    pose proof (split_rows_widths 48 48 vs Hl) as Hw.
    pose proof (split_rows_Forall _ 48 48 vs Hv) as Hb.
    rewrite Forall_forall in Hw, Hb. apply Forall_forall. intros row Hrow.
    rewrite !length_map. split; [apply Hw; exact Hrow|].
    rewrite !Forall_map. specialize (Hb row Hrow).
    eapply Forall_impl; [exact Hb|]. intros v Hvb. simpl.
    eexists. split; [reflexivity|]. apply scaled_pixel_bounds. exact Hvb.
  - clear Hfill. induction Hok as [|r data [vs [Hp [Hl Hv]]] _ IH];
      cbn [map]; constructor; [|exact IH].
    intros vs' Hp'.
    assert (E : vs' = vs)
      by (rewrite <- (fromstring_join vs'), <- Hp', Hp; apply fromstring_join).
    subst vs'. rewrite flatten_scaled. unfold grid.
    rewrite Hp, fromstring_join, split_rows_concat by exact Hl. reflexivity.
Qed.

(** ** Frames of computations *)

Section FrameRules.

Variable allowed : Event -> Prop.
Variable related : gmap string Node -> gmap string Node -> Prop.
Hypothesis related_pre : fs_preorder related.

Lemma related_refl (m : gmap string Node) : related m m.
Proof. apply related_pre. Qed.

Lemma related_trans (m1 m2 m3 : gmap string Node) :
  related m1 m2 -> related m2 m3 -> related m1 m3.
Proof. apply related_pre. Qed.

Lemma frame_refl (w : World) : frame allowed related w w.
Proof.
  repeat split; [apply related_refl|]. exists []. split; [|constructor].
  symmetry. apply app_nil_r.
Qed.

Lemma frame_trans (w1 w2 w3 : World) :
  frame allowed related w1 w2 -> frame allowed related w2 w3 ->
  frame allowed related w1 w3.
Proof.
  intros (Hc1 & Hf1 & evs1 & Ht1 & Ha1) (Hc2 & Hf2 & evs2 & Ht2 & Ha2).
  repeat split; [congruence | eapply related_trans; eassumption |].
  exists (evs1 ++ evs2). split.
  - rewrite Ht2, Ht1, app_assoc. reflexivity.
  - apply Forall_app; split; assumption.
Qed.

Lemma keeps_ret {A} (a : A) : keeps allowed related (ret a).
Proof. intros w. apply frame_refl. Qed.

Lemma keeps_throw {A} (e : exn) : keeps allowed related (@throw A e).
Proof. intros w. apply frame_refl. Qed.

Lemma keeps_lift {A} (r : result A) : keeps allowed related (lift r).
Proof. intros w. apply frame_refl. Qed.

Lemma keeps_get_fs : keeps allowed related get_fs.
Proof. intros w. apply frame_refl. Qed.

Lemma keeps_getcwd : keeps allowed related getcwd.
Proof. intros w. apply frame_refl. Qed.

Lemma keeps_tick : keeps allowed related tick.
Proof.
  intros w. repeat split; [apply related_refl|]. exists []. split; [|constructor].
  symmetry. apply app_nil_r.
Qed.

Lemma keeps_emit (e : Event) : allowed e -> keeps allowed related (emit e).
Proof.
  intros He w. repeat split; [apply related_refl|]. exists [e].
  split; [reflexivity|]. constructor; [exact He|constructor].
Qed.

Lemma keeps_print (m : Message) : allowed (Print m) -> keeps allowed related (print m).
Proof. apply keeps_emit. Qed.

Lemma keeps_set_fs (f : gmap string Node -> gmap string Node) :
  (forall m, related m (f m)) -> keeps allowed related (set_fs f).
Proof.
  intros Hf w. repeat split; [apply Hf|]. exists []. split; [|constructor].
  symmetry. apply app_nil_r.
Qed.

Lemma keeps_bind {A B} (m : M A) (k : A -> M B) :
  keeps allowed related m -> (forall a, keeps allowed related (k a)) ->
  keeps allowed related (bind m k).
Proof.
  intros Hm Hk w. unfold bind. specialize (Hm w).
  destruct (m w) as [[a|e] w']; simpl in *; [|exact Hm].
  eapply frame_trans; [exact Hm|apply Hk].
Qed.

Lemma keeps_try {A} (body handler : M A) :
  keeps allowed related body -> keeps allowed related handler ->
  keeps allowed related (try_except body handler).
Proof.
  intros Hb Hh w. unfold try_except. specialize (Hb w).
  destruct (body w) as [[a|e] w']; simpl in *; [exact Hb|].
  eapply frame_trans; [exact Hb|apply Hh].
Qed.

Lemma keeps_when (b : bool) (m : M unit) :
  keeps allowed related m -> keeps allowed related (when b m).
Proof. intros H. destruct b; [exact H|apply keeps_ret]. Qed.

Lemma keeps_for_each {A} (l : list A) (body : A -> M unit) :
  (forall x, keeps allowed related (body x)) ->
  keeps allowed related (for_each l body).
Proof.
  intros H. induction l as [|x l IH]; simpl; [apply keeps_ret|].
  apply keeps_bind; [apply H|intros _; exact IH].
Qed.

Lemma keeps_for_fold {A S} (l : list A) (acc : S) (body : S -> A -> M S) :
  (forall s x, keeps allowed related (body s x)) ->
  keeps allowed related (for_fold l acc body).
Proof.
  intros H. revert acc. induction l as [|x l IH]; intros acc; simpl; [apply keeps_ret|].
  apply keeps_bind; [apply H|intros s; apply IH].
Qed.

Lemma keeps_for_map {A B} (l : list A) (f : A -> M B) :
  (forall x, keeps allowed related (f x)) ->
  keeps allowed related (for_map l f).
Proof.
  intros H. induction l as [|x l IH]; simpl; [apply keeps_ret|].
  apply keeps_bind; [apply H|intros y].
  apply keeps_bind; [exact IH|intros ys; apply keeps_ret].
Qed.

End FrameRules.

(** One step of the proof that a computation keeps a frame: the rule of its
    head construct, a case split on what it branches on, or the unfolding of
    a function of the program. *)
Ltac frame_step :=
  lazymatch goal with
  | |- keeps _ _ (bind _ _) => apply keeps_bind; [assumption| |intros]
  | |- keeps _ _ (ret _) => apply keeps_ret; assumption
  | |- keeps _ _ (throw _) => apply keeps_throw; assumption
  | |- keeps _ _ (lift _) => apply keeps_lift; assumption
  | |- keeps _ _ get_fs => apply keeps_get_fs; assumption
  | |- keeps _ _ getcwd => apply keeps_getcwd; assumption
  | |- keeps _ _ tick => apply keeps_tick; assumption
  | |- keeps _ _ (emit _) => apply keeps_emit; [assumption|]
  | |- keeps _ _ (print _) => apply keeps_print; [assumption|]
  | |- keeps _ _ (set_fs _) => apply keeps_set_fs; intros
  | |- keeps _ _ (try_except _ _) => apply keeps_try; [assumption| |]
  | |- keeps _ _ (when _ _) => apply keeps_when; [assumption|]
  | |- keeps _ _ (for_each _ _) => apply keeps_for_each; [assumption|intros]
  | |- keeps _ _ (for_fold _ _ _) => apply keeps_for_fold; [assumption|intros]
  | |- keeps _ _ (for_map _ _) => apply keeps_for_map; [assumption|intros]
  | |- keeps _ _ (match ?x with _ => _ end) => destruct x
  | |- keeps _ _ (in_cwd _) => unfold in_cwd
  | |- keeps _ _ (path_exists _) => unfold path_exists
  | |- keeps _ _ (mkdir _) => unfold mkdir
  | |- keeps _ _ (rmtree _) => unfold rmtree
  | |- keeps _ _ (remove _) => unfold remove
  | |- keeps _ _ (rename _ _) => unfold rename
  | |- keeps _ _ (write_text _ _) => unfold write_text
  | |- keeps _ _ (read_csv _) => unfold read_csv
  | |- keeps _ _ (torch_load _) => unfold torch_load
  | |- keeps _ _ (torch_save _ _) => unfold torch_save
  | |- keeps _ _ (writer_add _ _) => unfold writer_add
  | |- keeps _ _ (writer_close _) => unfold writer_close
  | |- keeps _ _ (SummaryWriter_init _) => unfold SummaryWriter_init
  | |- keeps _ _ (FaceDataset_getitem _ _ _) => unfold FaceDataset_getitem
  | |- keeps _ _ (index_batches _ _) => unfold index_batches
  | |- keeps _ _ (fetch _ _ _) => unfold fetch
  | |- keeps _ _ (first_batch _ _) => unfold first_batch
  | |- keeps _ _ (predict _ _ _) => unfold predict
  | |- keeps _ _ (optimize _ _ _ _) => unfold optimize
  | |- keeps _ _ (data_image _ _ _ _) => unfold data_image
  | |- keeps _ _ (test _ _ _ _) => unfold test
  | |- keeps _ _ (dataset_details _ _) => unfold dataset_details
  | |- keeps _ _ (parameter_text_generator _ _) => unfold parameter_text_generator
  | |- keeps _ _ (new_network _ _) => unfold new_network
  | |- keeps _ _ (mean_loss _ _) => unfold mean_loss
  | |- keeps _ _ (train_epoch _ _ _) => unfold train_epoch
  | |- keeps _ _ (train _ _ _ _ _ _ _) => unfold train
  | |- keeps _ _ (obtain_model _ _ _ _) => unfold obtain_model
  | |- keeps _ _ (measure_existing _ _ _ _ _) => unfold measure_existing
  | |- keeps _ _ (compare_existing _ _ _ _ _ _ _ _) => unfold compare_existing
  | |- keeps _ _ (save_new _ _ _ _ _ _ _) => unfold save_new
  | |- keeps _ _ (persist _ _ _ _ _ _ _ _ _ _) => unfold persist
  end.

Ltac frame_auto := repeat frame_step.

Lemma any_fs_preorder : fs_preorder any_fs.
Proof. split; intros; exact I. Qed.

Lemma same_fs_preorder : fs_preorder eq.
Proof. split; intros; congruence. Qed.

(** [test] reads the data and asks the framework; it records nothing and
    leaves the file system alone. *)
Lemma test_keeps (allowed : Event -> Prop) (fw : Framework) (model : Network)
    (batch : Z) (dl : DataLoader) :
  keeps allowed eq (test fw model batch dl).
Proof.
  pose proof same_fs_preorder as Hpre.
  frame_auto.
Qed.

(** ** The attempt loop *)

Ltac frame_solve := frame_auto; try first [exact I | reflexivity].

Lemma attempts_begun_app (evs1 evs2 : list Event) :
  attempts_begun (evs1 ++ evs2) = (attempts_begun evs1 + attempts_begun evs2)%nat.
Proof.
  induction evs1 as [|e evs1 IH]; simpl; [reflexivity|].
  destruct (is_open e); simpl; rewrite IH; reflexivity.
Qed.

Lemma attempts_begun_quiet (evs : list Event) :
  Forall no_open evs -> attempts_begun evs = O.
Proof.
  induction 1 as [|e evs He _ IH]; simpl; [reflexivity|].
  unfold no_open in He. rewrite He. exact IH.
Qed.

Lemma counts_quiet {A} (m : M A) : keeps no_open any_fs m -> counts 0 m.
Proof.
  intros H w. destruct (H w) as (_ & _ & evs & Ht & Hq).
  exists evs. split; [exact Ht|apply attempts_begun_quiet; exact Hq].
Qed.

Lemma counts_bind_total {A B} (n1 n2 : nat) (m : M A) (k : A -> M B) :
  total m -> counts n1 m -> (forall a, counts n2 (k a)) ->
  counts (n1 + n2) (bind m k).
Proof.
  intros Ht Hm Hk w. unfold bind.
  destruct (Ht w) as [a Ha]. destruct (Hm w) as (evs1 & Ht1 & Hc1).
  destruct (m w) as [r w1]; simpl in *. subst r.
  destruct (Hk a w1) as (evs2 & Ht2 & Hc2).
  exists (evs1 ++ evs2). split.
  - rewrite Ht2, Ht1, app_assoc. reflexivity.
  - rewrite attempts_begun_app. lia.
Qed.

Lemma counts_bind_quiet {A B} (n : nat) (m : M A) (k : A -> M B) :
  counts n m -> (forall a, keeps no_open any_fs (k a)) -> counts n (bind m k).
Proof.
  intros Hm Hk w. unfold bind. destruct (Hm w) as (evs1 & Ht1 & Hc1).
  destruct (m w) as [[a|e] w1]; simpl in *; [|exists evs1; auto].
  destruct (Hk a w1) as (_ & _ & evs2 & Ht2 & Hq).
  exists (evs1 ++ evs2). split.
  - rewrite Ht2, Ht1, app_assoc. reflexivity.
  - rewrite attempts_begun_app, (attempts_begun_quiet evs2 Hq). lia.
Qed.

Lemma begins_bind_quiet {A B} (n : nat) (m : M A) (k : A -> M B) :
  keeps no_open any_fs m -> (forall a, begins n (k a)) -> begins n (bind m k).
Proof.
  intros Hm Hk w. unfold bind. destruct (Hm w) as (_ & _ & evs1 & Ht1 & Hq).
  pose proof (attempts_begun_quiet evs1 Hq) as H0.
  destruct (m w) as [[a|e] w1]; simpl in *.
  - destruct (Hk a w1) as (evs2 & Ht2 & Hle & Heq).
    exists (evs1 ++ evs2). split; [rewrite Ht2, Ht1, app_assoc; reflexivity|].
    rewrite attempts_begun_app, H0. simpl. split; assumption.
  - exists evs1. split; [exact Ht1|]. rewrite H0. split; [lia|].
    intros [a Ha]. discriminate.
Qed.

Lemma begins_quiet {A} (m : M A) : keeps no_open any_fs m -> begins 0 m.
Proof.
  intros H w. destruct (H w) as (_ & _ & evs & Ht & Hq).
  exists evs. rewrite (attempts_begun_quiet evs Hq). auto.
Qed.

Lemma begins_for_each {A} (l : list A) (body : A -> M unit) :
  (forall x, counts 1 (body x)) -> begins (length l) (for_each l body).
Proof.
  intros Hb. induction l as [|x l IH]; intros w; simpl.
  - exists []. rewrite app_nil_r. repeat split; auto.
  - unfold bind. destruct (Hb x w) as (evs1 & Ht1 & Hc1).
    destruct (body x w) as [[[]|e] w1]; simpl in *.
    + destruct (IH w1) as (evs2 & Ht2 & Hle & Heq).
      exists (evs1 ++ evs2). split; [rewrite Ht2, Ht1, app_assoc; reflexivity|].
      rewrite attempts_begun_app, Hc1. split; [lia|].
      intros Hok. rewrite (Heq Hok). reflexivity.
    + exists evs1. split; [exact Ht1|]. rewrite Hc1. split; [lia|].
      intros [a Ha]. discriminate.
Qed.

Lemma SummaryWriter_init_counts (rel : string) : counts 1 (SummaryWriter_init rel).
Proof.
  intros w. unfold SummaryWriter_init, in_cwd, getcwd, get_fs, bind, ret, emit, set_fs.
  simpl. destruct (fs w !! _); simpl; exists [WriterOpened (cwd w +:+ "/" +:+ rel)];
    split; reflexivity.
Qed.

Section Attempts.

Variable fw : Framework.
Variable construct : Constructor.
Variable a : option Args.

(** Every pass of the attempt loop opens the run writer once, however
    the pass ends. *)
Lemma attempt_body_counts (name : string) (epochs batch : Z) (load : bool) (att : Z)
    (training_data testing_data : FaceDataset) (testing_total attempt : Z) :
  counts 1 (attempt_body fw construct a name epochs batch load att
              training_data testing_data testing_total attempt).
Proof.
  pose proof any_fs_preorder as Hpre.
  unfold attempt_body.
  apply (counts_bind_total 0 1).
  - intros w. destruct (1 <? att); simpl; exists tt; reflexivity.
  - apply counts_quiet. frame_solve.
  - intros _. apply counts_bind_quiet; [apply SummaryWriter_init_counts|].
    intros writer. frame_solve.
Qed.

Lemma py_range_length (lo hi : Z) : length (py_range lo hi) = Z.to_nat (hi - lo).
Proof. unfold py_range. rewrite length_map, length_seq. reflexivity. Qed.

(** [main] begins at most as many attempts as lines 266 and 267 decide,
    and exactly as many when it returns normally. *)
Lemma main_with_begins (name : string) (epochs batch : Z) (load : bool)
    (mini maxi rot : Q) (att : Z) :
  String.eqb name "Current" = false ->
  begins (Z.to_nat (attempts load att))
    (main_with fw construct a name epochs batch load mini maxi rot att).
Proof.
  intros Hname. pose proof any_fs_preorder as Hpre.
  unfold main_with. rewrite Hname.
  repeat (apply begins_bind_quiet; [solve [frame_solve]|intros]).
  replace (Z.to_nat (attempts load att))
    with (length (py_range 0 (attempts load att)))
    by (rewrite py_range_length; f_equal; lia).
  apply begins_for_each. intros x. apply attempt_body_counts.
Qed.

End Attempts.

Lemma events_since_app (w w' : World) (evs : list Event) :
  trace w' = trace w ++ evs -> events_since w w' = evs.
Proof. intros H. unfold events_since. rewrite H. apply drop_app_length. Qed.

(** ** Keeping the better checkpoint *)

Lemma string_app_assoc (s t u : string) : (s +:+ t) +:+ u = s +:+ (t +:+ u).
Proof.
  induction s as [|c s IH]; [reflexivity|].
  change ((String c s +:+ t) +:+ u) with (String c ((s +:+ t) +:+ u)).
  rewrite IH. reflexivity.
Qed.

Lemma eqb_app_head (d x y : string) : String.eqb (d +:+ x) (d +:+ y) = String.eqb x y.
Proof.
  induction d as [|c d IH]; [reflexivity|].
  change (String.eqb (String c (d +:+ x)) (String c (d +:+ y)) = String.eqb x y).
  simpl. rewrite Ascii.eqb_refl. exact IH.
Qed.

Lemma prefix_app_head (d x y : string) :
  String.prefix (d +:+ x) (d +:+ y) = String.prefix x y.
Proof.
  induction d as [|c d IH]; [reflexivity|].
  change (String.prefix (String c (d +:+ x)) (String c (d +:+ y)) = String.prefix x y).
  simpl. destruct (ascii_dec c c); [exact IH|contradiction].
Qed.

(** The checkpoint of a model is not inside the current run directory. *)
Lemma checkpoint_outside_run (d name : string) :
  under (d +:+ "/" +:+ "runs/Current") (d +:+ "/" +:+ ("Models/" +:+ name +:+ ".pt")) = false.
Proof.
  unfold under. rewrite string_app_assoc, eqb_app_head, prefix_app_head. reflexivity.
Qed.

Lemma run_under_itself (p : string) : under p p = true.
Proof. unfold under. rewrite String.eqb_refl. reflexivity. Qed.

Lemma bind_run {A B} (m : M A) (k : A -> M B) (w w' : World) (x : A) :
  m w = (Ok x, w') -> bind m k w = k x w'.
Proof. intros H. unfold bind. rewrite H. reflexivity. Qed.

Section Persist.

Variable fw : Framework.
Variable construct : Constructor.
Variable a : option Args.

Lemma measure_existing_keeps (p : string) (batch : Z) (dl : DataLoader) :
  keeps no_save eq (measure_existing fw construct p batch dl).
Proof. pose proof same_fs_preorder as Hpre. frame_solve. Qed.

Lemma path_exists_true (p : string) (w : World) :
  is_Some (fs w !! p) -> path_exists p w = (Ok true, w).
Proof.
  intros H. unfold path_exists, get_fs, bind, ret.
  rewrite bool_decide_eq_true_2 by exact H. reflexivity.
Qed.

(** What the comparison decides when the existing checkpoint loads and is
    measured at [e]: the verdict, and the world it leaves. *)
Lemma compare_existing_measured (name : string) (batch : Z) (dl : DataLoader)
    (writer : SummaryWriter) (acc e : Q) (w w2 : World) :
  let p := cwd w +:+ "/" +:+ ("Models/" +:+ name +:+ ".pt") in
  let runs := cwd w +:+ "/" +:+ "runs/Current" in
  is_Some (fs w !! p) ->
  is_Some (fs w !! runs) ->
  measure_existing fw construct p batch dl (snd (print (exists_message name) w))
    = (Ok (Finite e), w2) ->
  exists msg evs,
    Forall no_save evs /\
    compare_existing fw construct name false batch dl writer (Finite acc) w =
    if Qle_bool acc e
    then (Ok KeepExisting,
          mkWorld (cwd w) (filter (fun kv => under runs (fst kv) = false) (fs w))
            (trace w ++ evs ++ [Print msg; WriterClosed (log_dir writer); RemovedTree runs])
            (ticks w2))
    else (Ok SaveNew,
          mkWorld (cwd w) (fs w) (trace w ++ evs ++ [Print msg]) (ticks w2)).
Proof.
  intros p runs Hp Hruns Hm.
  destruct (measure_existing_keeps p batch dl (snd (print (exists_message name) w)))
    as (Hcwd & Hfs & evs & Ht & Hq).
  rewrite Hm in Hcwd, Hfs, Ht. simpl in Hcwd, Hfs, Ht.
  unfold compare_existing.
  rewrite (bind_run (in_cwd _) _ w w p) by reflexivity.
  rewrite (bind_run (path_exists p) _ w w true) by (apply path_exists_true; exact Hp).
  change (negb false && true) with true. cbv iota.
  rewrite (bind_run (print (exists_message name)) _ w
             (snd (print (exists_message name) w)) tt) by reflexivity.
  unfold try_except.
  rewrite (bind_run _ _ _ _ _ Hm).
  change (float_ge (Finite e) (Finite acc)) with (Qle_bool acc e).
  destruct w2 as [c2 f2 t2 k2]. simpl in Hcwd, Hfs, Ht. subst c2 f2 t2.
  destruct (Qle_bool acc e).
  - eexists _, (Print (exists_message name) :: evs). split.
    { constructor; [reflexivity|exact Hq]. }
    unfold print, emit, writer_close, in_cwd, getcwd, rmtree, get_fs, set_fs, bind, ret.
    simpl. fold runs. destruct Hruns as [node Hnode]. rewrite Hnode. simpl.
    repeat rewrite <- app_assoc. simpl. reflexivity.
  - eexists _, (Print (exists_message name) :: evs). split.
    { constructor; [reflexivity|exact Hq]. }
    unfold print, emit, bind, ret. simpl.
    repeat rewrite <- app_assoc. simpl. reflexivity.
Qed.

Lemma no_save_not_saved (evs : list Event) (p : string) (sd : StateDict) :
  Forall no_save evs -> ~ In (Saved p sd) evs.
Proof.
  intros H Hin. rewrite Forall_forall in H.
  apply list_elem_of_In in Hin. specialize (H _ Hin). discriminate H.
Qed.

End Persist.

(** ** The repository's constructor inside main *)

Lemma fails_bind_l {A B} (m : M A) (k : A -> M B) : fails m -> fails (bind m k).
Proof.
  intros H w. destruct (H w) as [e He]. unfold bind.
  destruct (m w) as [r w']. simpl in He. subst r. exists e. reflexivity.
Qed.

Lemma fails_bind_r {A B} (m : M A) (k : A -> M B) :
  (forall x, fails (k x)) -> fails (bind m k).
Proof.
  intros H w. unfold bind. destruct (m w) as [[x|e] w']; [apply H|].
  exists e. reflexivity.
Qed.

Lemma new_network_fails (fw : Framework) : fails (new_network fw NeuralNetwork).
Proof. intros w. eexists. reflexivity. Qed.

Lemma obtain_model_fails (fw : Framework) (name : string) (load : bool) :
  fails (obtain_model fw NeuralNetwork name load).
Proof.
  unfold obtain_model. apply fails_bind_r. intros p.
  intros w. unfold bind.
  destruct load.
  - unfold path_exists, get_fs, bind, ret. simpl.
    destruct (bool_decide (is_Some (fs w !! p))); simpl; eexists; reflexivity.
  - simpl. eexists. reflexivity.
Qed.

Lemma attempt_body_fails (fw : Framework) (a : option Args) (name : string)
    (epochs batch : Z) (load : bool) (att : Z)
    (training_data testing_data : FaceDataset) (testing_total attempt : Z) :
  fails (attempt_body fw NeuralNetwork a name epochs batch load att
           training_data testing_data testing_total attempt).
Proof.
  unfold attempt_body. apply fails_bind_r. intros _. apply fails_bind_r. intros writer.
  apply fails_bind_l. apply obtain_model_fails.
Qed.

Lemma attempts_positive (load : bool) (att : Z) : 1 <= attempts load att.
Proof.
  unfold attempts. destruct load; simpl; [lia|].
  destruct (att <? 1) eqn:E; [lia|]. apply Z.ltb_ge in E. exact E.
Qed.

(** With the repository's [NeuralNetwork], [main] never returns normally for
    a name other than "Current": whatever the data, the flags and the files
    are, it raises, at the latest when the first attempt constructs its
    network. *)
Lemma main_never_completes (fw : Framework) (a : option Args) (name : string)
    (epochs batch : Z) (load : bool) (mini maxi rot : Q) (att : Z) :
  String.eqb name "Current" = false ->
  fails (main fw a name epochs batch load mini maxi rot att).
Proof.
  intros Hname. unfold main, main_with. rewrite Hname.
  repeat (apply fails_bind_r; intros).
  pose proof (attempts_positive load att) as Hpos.
  unfold py_range.
  destruct (Z.to_nat (attempts load att - 0)) as [|n] eqn:E; [lia|].
  cbn [seq map for_each]. apply fails_bind_l. apply attempt_body_fails.
Qed.

(** ** The properties at the concrete inputs *)

Lemma Forall_repeat_same {A} (P : A -> Prop) (x : A) (n : nat) :
  P x -> Forall P (repeat x n).
Proof. intros H. induction n; simpl; constructor; assumption. Defined.

Lemma sample_row_ok (v : Z) (usage : string) :
  0 <= v <= 255 -> pixel_row_ok (mkRow v (Sample.pixel_text v) usage).
Proof.
  intros H. exists (Sample.pixel_values v). split; [reflexivity|].
  split; [apply repeat_length|]. apply Forall_repeat_same. exact H.
Defined.

Lemma FaceDataset_plain_witness :
  let ds := FaceDataset_init Sample.tiny_images Sample.tiny_labels
              (Some 1%Q) (Some 1%Q) (Some 0%Q) in
  (1 == 1)%Q /\ (0 == 0)%Q /\
  transform ds = None /\
  FaceDataset_getitem Sample.fw0 ds 1 Sample.world0
    = (Ok ([[[1 # 255]]]%Q, 1), Sample.world0).
Proof.
  intros ds.
  destruct (FaceDataset_plain Sample.fw0 Sample.tiny_images Sample.tiny_labels
              (Some 1%Q) (Some 1%Q) (Some 0%Q) 1 Sample.world0) as [H _].
  destruct (H (Qeq_refl 1) (Qeq_refl 1) (Qeq_refl 0)) as [Ht Hg].
  split; [reflexivity|]. split; [reflexivity|]. split; [exact Ht|exact Hg].
Defined.

Lemma prepare_data_shape_witness :
  Forall pixel_row_ok Sample.data /\
  exists imgs lbls,
    prepare_data Sample.data = Ok (imgs, lbls) /\
    length imgs = 5%nat /\ Forall image_ok imgs /\ lbls = [0; 1; 2; 3; 4].
Proof.
  assert (H : Forall pixel_row_ok Sample.data)
    by (repeat constructor; apply sample_row_ok; lia).
  split; [exact H|].
  destruct (prepare_data_shape Sample.data H)
    as (imgs & lbls & Hp & Hl & Hi & _ & _ & Hlb).
  exists imgs, lbls. repeat split; assumption.
Defined.

(** ** More on dataset_details *)

Lemma bump_only_IndexError (counts : list Z) (l : Z) (e : exn) :
  bump counts l = Raise e -> e = IndexError.
Proof.
  unfold bump, getitem, setitem. destruct (py_index (length counts) l) as [k|].
  - destruct (counts !! k); intros H; congruence.
  - intros H. congruence.
Qed.

Lemma bump_length (counts counts' : list Z) (l : Z) :
  bump counts l = Ok counts' -> length counts' = length counts.
Proof.
  unfold bump, getitem, setitem. destruct (py_index (length counts) l) as [k|].
  - destruct (counts !! k); intros H; [|discriminate].
    injection H as <-. apply length_insert.
  - discriminate.
Qed.

Lemma bump_no_bucket (counts : list Z) (l : Z) :
  length counts = 7%nat -> no_bucket l -> bump counts l = Raise IndexError.
Proof.
  intros Hlen Hl. unfold bump, getitem, py_index. rewrite Hlen.
  unfold no_bucket in Hl.
  replace ((0 <=? l) && (l <? Z.of_nat 7)) with false
    by (symmetry; apply andb_false_iff; destruct Hl;
        [left; apply Z.leb_gt; lia | right; apply Z.ltb_ge; lia]).
  replace ((- Z.of_nat 7 <=? l) && (l <? 0)) with false
    by (symmetry; apply andb_false_iff; destruct Hl;
        [left; apply Z.leb_gt; lia | right; apply Z.ltb_ge; lia]).
  reflexivity.
Qed.

Lemma count_labels_no_bucket (lbls : list Z) :
  Exists no_bucket lbls ->
  forall counts, length counts = 7%nat -> count_labels counts lbls = Raise IndexError.
Proof.
  induction 1 as [l lbls Hl | l lbls _ IH]; intros counts Hlen; simpl.
  - rewrite (bump_no_bucket counts l Hlen Hl). reflexivity.
  - destruct (bump counts l) as [counts'|e] eqn:E.
    + apply IH. rewrite (bump_length _ _ _ E). exact Hlen.
    + rewrite (bump_only_IndexError _ _ _ E). reflexivity.
Qed.

(** A label below -7 or above 6 anywhere in the list makes
    [dataset_details] raise [IndexError]; nothing is printed. *)
Theorem dataset_details_bad_label (title : string) (lbls : list Z) (w : World) :
  Exists no_bucket lbls ->
  dataset_details title lbls w = (Raise IndexError, w).
Proof.
  intros H. unfold dataset_details, bind, lift.
  rewrite (count_labels_no_bucket lbls H) by reflexivity. reflexivity.
Qed.

Lemma dataset_details_bad_label_witness :
  Exists no_bucket [0; 7; 3] /\
  dataset_details "Training" [0; 7; 3] Sample.world0 = (Raise IndexError, Sample.world0).
Proof.
  assert (H : Exists no_bucket [0; 7; 3])
    by (apply Exists_cons_tl, Exists_cons_hd; right; lia).
  split; [exact H|]. apply dataset_details_bad_label. exact H.
Defined.

Lemma count_labels_wrapped (lbls : list Z) :
  Forall (fun l => -7 <= l <= 6) lbls ->
  forall a0 a1 a2 a3 a4 a5 a6,
  count_labels [a0; a1; a2; a3; a4; a5; a6] lbls =
  Ok [a0 + occurrences 0 (map class_of lbls); a1 + occurrences 1 (map class_of lbls);
      a2 + occurrences 2 (map class_of lbls); a3 + occurrences 3 (map class_of lbls);
      a4 + occurrences 4 (map class_of lbls); a5 + occurrences 5 (map class_of lbls);
      a6 + occurrences 6 (map class_of lbls)].
Proof.
  unfold occurrences.
  induction 1 as [|l lbls Hl _ IH]; intros; simpl count_labels.
  - simpl. repeat rewrite Z.add_0_r. reflexivity.
  - assert (Hc : l = -7 \/ l = -6 \/ l = -5 \/ l = -4 \/ l = -3 \/ l = -2 \/ l = -1 \/
                 l = 0 \/ l = 1 \/ l = 2 \/ l = 3 \/ l = 4 \/ l = 5 \/ l = 6) by lia.
    repeat (destruct Hc as [->|Hc]); [..|subst l];
      cbn [bump getitem setitem py_index length]; simpl;
      rewrite IH; f_equal;
      repeat (apply (f_equal2 cons); [lia|]); reflexivity.
Qed.

(** Labels between -7 and -1 are accepted as well: each is counted in the
    bucket of its residue modulo 7 (so -1 counts as class 6), and the
    counts again add up to the length of the list. *)
Theorem dataset_details_negative_labels (lbls : list Z) :
  Forall (fun l => -7 <= l <= 6) lbls ->
  exists counts,
    count_labels [0; 0; 0; 0; 0; 0; 0] lbls = Ok counts /\
    (forall c, in_classes c ->
       getitem counts c = Ok (occurrences c (map class_of lbls))) /\
    py_sum counts = Z.of_nat (length lbls).
Proof.
  intros H. pose proof (count_labels_wrapped lbls H 0 0 0 0 0 0 0) as Hc.
  eexists. split; [exact Hc|]. split.
  - intros c Hcl. unfold in_classes in Hcl.
    assert (Hd : c = 0 \/ c = 1 \/ c = 2 \/ c = 3 \/ c = 4 \/ c = 5 \/ c = 6) by lia.
    destruct Hd as [->|[->|[->|[->|[->|[->| ->]]]]]]; reflexivity.
  - assert (Hin : Forall in_classes (map class_of lbls)).
    { clear Hc. induction H as [|l lbls Hl _ IH]; simpl; constructor; [|exact IH].
      unfold in_classes, class_of. pose proof (Z.mod_pos_bound l 7). lia. }
    pose proof (occurrences_total _ Hin) as Ht. rewrite length_map in Ht.
    unfold py_sum. simpl. lia.
Qed.

Lemma dataset_details_negative_labels_witness :
  Forall (fun l => -7 <= l <= 6) [-1; 6; 0] /\
  exists counts,
    count_labels [0; 0; 0; 0; 0; 0; 0] [-1; 6; 0] = Ok counts /\
    getitem counts 6 = Ok 2 /\ py_sum counts = 3.
Proof.
  assert (H : Forall (fun l => -7 <= l <= 6) [-1; 6; 0])
    by (repeat constructor; lia).
  split; [exact H|].
  destruct (dataset_details_negative_labels _ H) as (counts & Hc & Hg & Hs).
  exists counts. split; [exact Hc|]. split; [|exact Hs].
  rewrite (Hg 6); [reflexivity|unfold in_classes; lia].
Defined.

Lemma dataset_details_nonempty_witness :
  Forall in_classes [3; 0; 3] /\ [3; 0; 3] <> [] /\
  exists w', dataset_details "Testing" [3; 0; 3] Sample.world0 = (Ok 3, w').
Proof.
  assert (H : Forall in_classes [3; 0; 3])
    by (repeat constructor; unfold in_classes; lia).
  assert (Hne : [3; 0; 3] <> ([] : list Z)) by discriminate.
  split; [exact H|]. split; [exact Hne|].
  destruct (dataset_details_nonempty "Testing" [3; 0; 3] Sample.world0 H Hne)
    as (counts & _ & _ & _ & body & Hd).
  eexists. exact Hd.
Defined.

(** ** More on prepare_data *)

Lemma fill_images_outcome (data : DataFrame) :
  forall done todo : list (list (list Z)),
  length todo = length data ->
  fill_images (done ++ todo)
    (combine (map (fun k => 0 + Z.of_nat k) (seq (length done) (length data))) data)
  = if forallb has_2304 data then Ok (done ++ map grid data)
    else Raise (ValueError "cannot reshape array").
Proof.
  induction data as [|r data IH]; intros done todo Hlen.
  - destruct todo; [|discriminate]. reflexivity.
  - destruct todo as [|t todo]; [discriminate|].
    cbn [length seq map combine fill_images forallb].
    unfold reshape2, has_2304 at 1.
    destruct (Nat.eqb (length (fromstring (pixels r))) (48 * 48)) eqn:E;
      [|reflexivity].
    fold (grid r). set (g := grid r).
    unfold setitem, py_index.
    replace ((0 <=? 0 + Z.of_nat (length done))
             && (0 + Z.of_nat (length done) <? Z.of_nat (length (done ++ t :: todo))))
      with true
      by (symmetry; apply andb_true_intro; split;
          [apply Z.leb_le; lia | apply Z.ltb_lt; rewrite length_app; simpl; lia]).
    replace (Z.to_nat (0 + Z.of_nat (length done))) with (length done) by lia.
    rewrite insert_app_r_alt by lia. rewrite Nat.sub_diag.
    change (<[0%nat:=g]> (t :: todo)) with ([g] ++ todo).
    rewrite app_assoc.
    replace (S (length done)) with (length (done ++ [g]))
      by (rewrite length_app; simpl; lia).
    rewrite IH by (simpl in Hlen; lia).
    cbn [andb]. destruct (forallb has_2304 data); [|reflexivity].
    rewrite <- app_assoc. reflexivity.
Qed.

(** [prepare_data] succeeds exactly when the pixel text of every row reads
    as 2304 integers, and then returns one image per row and the rows'
    'emotion' values as labels; a single row of another length makes the
    whole call raise [ValueError], whatever the other rows hold. *)
Theorem prepare_data_outcome (data : DataFrame) :
  (forallb has_2304 data = true ->
     exists imgs, prepare_data data = Ok (imgs, map emotion data) /\
                  length imgs = length data) /\
  (forallb has_2304 data = false ->
     prepare_data data = Raise (ValueError "cannot reshape array")).
Proof.
  pose proof (fill_images_outcome data [] (zeros (length data))) as H.
  simpl in H. specialize (H (repeat_length _ _)).
  unfold prepare_data, enumerate, py_range. rewrite Z.sub_0_r, Nat2Z.id.
  split; intros E; rewrite E in H; rewrite H; [|reflexivity].
  eexists. split; [reflexivity|]. rewrite !length_map. reflexivity.
Qed.

Lemma prepare_data_outcome_witness :
  (forallb has_2304 Sample.data = true /\
   exists imgs, prepare_data Sample.data = Ok (imgs, [0; 1; 2; 3; 4]) /\
                length imgs = 5%nat) /\
  (forallb has_2304 [mkRow 3 "1 2 3" "Training"] = false /\
   prepare_data [mkRow 3 "1 2 3" "Training"] = Raise (ValueError "cannot reshape array")).
Proof.
  assert (H1 : forallb has_2304 Sample.data = true) by (vm_compute; reflexivity).
  assert (H2 : forallb has_2304 [mkRow 3 "1 2 3" "Training"] = false)
    by (vm_compute; reflexivity).
  split.
  - split; [exact H1|]. exact (proj1 (prepare_data_outcome Sample.data) H1).
  - split; [exact H2|]. exact (proj2 (prepare_data_outcome _) H2).
Defined.

(** ** More on FaceDataset *)

Lemma transpose_map {A B} (f : A -> B) (w : nat) (m : list (list A)) :
  transpose w (map (map f) m) = map (map f) (transpose w m).
Proof.
  induction m as [|row m IH]; simpl.
  - induction w as [|w IHw]; simpl; [reflexivity|]. rewrite IHw. reflexivity.
  - rewrite IH. generalize (transpose w m). intros T. revert T.
    induction row as [|x row IHr]; intros [|c T]; simpl; try reflexivity.
    rewrite IHr. reflexivity.
Qed.

Lemma transpose_singletons {A} (col : list A) :
  transpose 1 (map (fun x => [x]) col) = [col].
Proof.
  induction col as [|x col IH]; simpl; [reflexivity|]. rewrite IH. reflexivity.
Qed.

Lemma transpose_length {A} (w : nat) (m : list (list A)) :
  Forall (fun row => length row = w) m -> length (transpose w m) = w.
Proof.
  induction 1 as [|row m Hrow _ IH]; simpl; [apply repeat_length|].
  rewrite length_map, length_combine, IH, Hrow. apply Nat.min_id.
Qed.

Lemma transpose_zip {A} (h : nat) (row : list A) (T : list (list A)) :
  length row = length T ->
  transpose (S h) (map (fun '(x, col) => x :: col) (combine row T))
  = row :: transpose h T.
Proof.
  revert T. induction row as [|x row IH]; intros [|c T] Hlen; simpl in *;
    try discriminate; [reflexivity|].
  rewrite IH by lia. reflexivity.
Qed.

Lemma transpose_transpose {A} (w : nat) (m : list (list A)) :
  Forall (fun row => length row = w) m ->
  transpose (length m) (transpose w m) = m.
Proof.
  induction 1 as [|row m Hrow Hm IH]; simpl.
  - induction w as [|w IHw]; simpl; reflexivity.
  - rewrite transpose_zip by (rewrite transpose_length by exact Hm; exact Hrow).
    rewrite IH. reflexivity.
Qed.

Lemma transpose_columns_length {A} (w : nat) (m : list (list A)) :
  Forall (fun row => length row = w) m ->
  Forall (fun col => length col = length m) (transpose w m).
Proof.
  induction 1 as [|row m Hrow Hm IH]; simpl.
  - induction w; simpl; constructor; auto.
  - pose proof (transpose_length w m Hm) as HT.
    revert IH HT. generalize (transpose w m). intros T IH HT.
    assert (HrT : length row = length T) by lia. clear Hrow HT Hm.
    revert T IH HrT. induction row as [|x row IHr]; intros [|c T] IH Hl; simpl in *;
      try discriminate; constructor.
    + inversion IH; subst. simpl. lia.
    + apply IHr; [inversion IH; assumption|lia].
Qed.

Lemma stored_image (h w : nat) (grid : list (list Q)) :
  rectangular h w grid ->
  swapaxes_2_3 (swapaxes_1_3 [channel_last grid]) = [[grid]].
Proof.
  intros (Hh & Hrows & Hhpos & Hwpos).
  unfold swapaxes_2_3, swapaxes_1_3, channel_last. cbn [map].
  assert (Hwidth : width (map (map (fun q : Q => [q])) grid) = w).
  { destruct grid as [|row grid]; [simpl in Hh; lia|]. simpl.
    rewrite length_map. inversion Hrows; assumption. }
  rewrite Hwidth, transpose_map.
  pose proof (transpose_length w grid Hrows) as Hlen.
  pose proof (transpose_columns_length w grid Hrows) as Hcols.
  set (cols := transpose w grid) in *.
  assert (Hplanes : map (fun plane : list (list Q) => transpose (width plane) plane)
                      (map (map (fun q : Q => [q])) cols)
                    = map (fun col => [col]) cols).
  { rewrite map_map. apply map_ext_in. intros col Hcol.
    rewrite Forall_forall in Hcols. apply list_elem_of_In in Hcol.
    specialize (Hcols col Hcol).
    destruct col as [|q col]; [simpl in Hcols; lia|].
    simpl width. apply (transpose_singletons (q :: col)). }
  rewrite Hplanes.
  assert (Hw1 : width (map (fun col : list Q => [col]) cols) = 1%nat).
  { destruct cols; [simpl in Hlen; lia|reflexivity]. }
  rewrite Hw1, transpose_singletons. cbn [map].
  assert (Hwc : width cols = length grid).
  { destruct cols as [|c cols']; [simpl in Hlen; lia|].
    inversion Hcols; subst. simpl. assumption. }
  rewrite Hwc. unfold cols. rewrite transpose_transpose by exact Hrows.
  reflexivity.
Qed.

(** [FaceDataset.__init__] turns every height x width x 1 image into a
    1 x height x width image whose single channel is the pixel grid itself,
    rows and columns in their original order (upright, not transposed);
    the length of the data set is the number of labels. *)
Theorem FaceDataset_channel_first (h w : nat) (grids : list (list (list Q)))
    (lbls : list Z) (mini maxi rot : option Q) :
  Forall (rectangular h w) grids ->
  let ds := FaceDataset_init (map channel_last grids) lbls mini maxi rot in
  images ds = map (fun grid => [grid]) grids /\
  FaceDataset_len ds = Z.of_nat (length lbls).
Proof.
  intros Hg ds.
  assert (Himg : swapaxes_2_3 (swapaxes_1_3 (map channel_last grids))
                 = map (fun grid => [grid]) grids).
  { induction Hg as [|grid grids Hgrid _ IH]; [reflexivity|].
    pose proof (stored_image h w grid Hgrid) as H1.
    unfold swapaxes_2_3, swapaxes_1_3 in *. cbn [map] in *.
    injection H1 as H1. rewrite H1, IH. reflexivity. }
  unfold ds, FaceDataset_init, FaceDataset_len.
  repeat match goal with |- context [if ?b then _ else _] => destruct b end;
    simpl; rewrite Himg, length_map; split; reflexivity.
Qed.

Lemma FaceDataset_channel_first_witness :
  Forall (rectangular 2 3) [[[1; 2; 3]; [4; 5; 6]]]%Q /\
  images (FaceDataset_init (map channel_last [[[1; 2; 3]; [4; 5; 6]]]%Q) [0]
            None None None)
  = [[[[1; 2; 3]; [4; 5; 6]]]]%Q.
Proof.
  assert (H : Forall (rectangular 2 3) [[[1; 2; 3]; [4; 5; 6]]]%Q).
  { repeat constructor. }
  split; [exact H|].
  exact (proj1 (FaceDataset_channel_first 2 3 _ [0] None None None H)).
Defined.

Lemma py_index_outside (n : nat) (i : Z) :
  i < - Z.of_nat n \/ Z.of_nat n <= i -> py_index n i = None.
Proof.
  intros H. unfold py_index.
  replace ((0 <=? i) && (i <? Z.of_nat n)) with false
    by (symmetry; apply andb_false_iff; destruct H;
        [left; apply Z.leb_gt; lia | right; apply Z.ltb_ge; lia]).
  replace ((- Z.of_nat n <=? i) && (i <? 0)) with false
    by (symmetry; apply andb_false_iff; destruct H;
        [left; apply Z.leb_gt; lia | right; apply Z.ltb_ge; lia]).
  reflexivity.
Qed.

Lemma py_index_negative (n : nat) (i : Z) :
  - Z.of_nat n <= i < 0 -> py_index n i = py_index n (i + Z.of_nat n).
Proof.
  intros H. unfold py_index.
  replace ((0 <=? i) && (i <? Z.of_nat n)) with false
    by (symmetry; apply andb_false_iff; left; apply Z.leb_gt; lia).
  replace ((- Z.of_nat n <=? i) && (i <? 0)) with true
    by (symmetry; apply andb_true_intro; split;
        [apply Z.leb_le; lia | apply Z.ltb_lt; lia]).
  replace ((0 <=? i + Z.of_nat n) && (i + Z.of_nat n <? Z.of_nat n)) with true
    by (symmetry; apply andb_true_intro; split;
        [apply Z.leb_le; lia | apply Z.ltb_lt; lia]).
  reflexivity.
Qed.

(** [FaceDataset.__getitem__] at an index beyond either end of the images
    raises [IndexError] before any transformation is drawn: the world is
    unchanged, with or without a transform.  An index between [-n] and [-1]
    on a data set of [n] images and labels is the item at that index plus
    [n], counted from the end. *)
Theorem FaceDataset_getitem_bounds (fw : Framework) (ds : FaceDataset) (idx : Z)
    (w : World) :
  let n := Z.of_nat (length (images ds)) in
  (idx < - n \/ n <= idx ->
     FaceDataset_getitem fw ds idx w = (Raise IndexError, w)) /\
  (length (labels ds) = length (images ds) -> - n <= idx < 0 ->
     FaceDataset_getitem fw ds idx w = FaceDataset_getitem fw ds (idx + n) w).
Proof.
  intros n. split.
  - intros H. unfold FaceDataset_getitem, bind, lift, getitem.
    rewrite (py_index_outside _ _ H). reflexivity.
  - intros Hlen H. unfold FaceDataset_getitem, getitem.
    rewrite Hlen. rewrite (py_index_negative _ _ H). reflexivity.
Qed.

Lemma FaceDataset_getitem_bounds_witness :
  (3 <= 3) /\ (- 3 <= -1 < 0) /\
  FaceDataset_getitem Sample.fw0 Sample.tiny_data 3 Sample.world0
    = (Raise IndexError, Sample.world0) /\
  FaceDataset_getitem Sample.fw0 Sample.tiny_data (-1) Sample.world0
    = (Ok ([[[2 # 255]]]%Q, 2), Sample.world0).
Proof.
  destruct (FaceDataset_getitem_bounds Sample.fw0 Sample.tiny_data 3 Sample.world0)
    as [H1 _].
  destruct (FaceDataset_getitem_bounds Sample.fw0 Sample.tiny_data (-1) Sample.world0)
    as [_ H2].
  split; [lia|]. split; [lia|]. split.
  - apply H1. right. simpl. lia.
  - etransitivity; [apply H2; [reflexivity|simpl; lia]|]. reflexivity.
Defined.

(** ** More on data_image and test *)

Lemma index_batches_empty (fw : Framework) (dl : DataLoader) (w : World) :
  labels (dl_dataset dl) = [] ->
  index_batches fw dl w = (Ok [], mkWorld (cwd w) (fs w) (trace w) (S (ticks w))).
Proof.
  intros H. unfold index_batches, bind, tick, ret. rewrite H. simpl.
  destruct (permutation fw (ticks w) 0); reflexivity.
Qed.

(** On a data set without examples [data_image] raises [StopIteration]:
    there is no first batch to draw; nothing is written or recorded. *)
Theorem data_image_empty (fw : Framework) (dl : DataLoader) (writer : SummaryWriter)
    (title : string) (w : World) :
  labels (dl_dataset dl) = [] ->
  data_image fw dl writer title w
  = (Raise StopIteration, mkWorld (cwd w) (fs w) (trace w) (S (ticks w))).
Proof.
  intros H. unfold data_image, first_batch, bind.
  rewrite (index_batches_empty fw dl w H). reflexivity.
Qed.

Lemma data_image_empty_witness :
  labels (FaceDataset_init [] [] None None None) = [] /\
  fst (data_image Sample.fw0 (mkDataLoader (FaceDataset_init [] [] None None None) 2)
         Sample.writer0 "Training Sample" Sample.world1) = Raise StopIteration.
Proof.
  split; [reflexivity|].
  rewrite (data_image_empty Sample.fw0
             (mkDataLoader (FaceDataset_init [] [] None None None) 2)
             Sample.writer0 "Training Sample" Sample.world1 eq_refl).
  reflexivity.
Defined.

(** On a test set without examples [test] raises [ZeroDivisionError]: zero
    right predictions are divided by zero batches. *)
Theorem test_empty (fw : Framework) (model : Network) (batch : Z) (dl : DataLoader)
    (w : World) :
  labels (dl_dataset dl) = [] -> 0 < batch_size dl ->
  test fw model batch dl w
  = (Raise ZeroDivisionError, mkWorld (cwd w) (fs w) (trace w) (S (ticks w))).
Proof.
  intros H Hb. unfold test, bind.
  rewrite (index_batches_empty fw dl w H). simpl.
  unfold DataLoader_len, FaceDataset_len. rewrite H. simpl.
  rewrite Z.div_small by lia. reflexivity.
Qed.

Lemma test_empty_witness :
  labels (FaceDataset_init [] [] None None None) = [] /\ 0 < 2 /\
  fst (test Sample.fw0 Sample.exact_network 2
         (mkDataLoader (FaceDataset_init [] [] None None None) 2) Sample.world0)
  = Raise ZeroDivisionError.
Proof.
  split; [reflexivity|]. split; [lia|].
  rewrite (test_empty Sample.fw0 Sample.exact_network 2
             (mkDataLoader (FaceDataset_init [] [] None None None) 2)
             Sample.world0 eq_refl ltac:(simpl; lia)).
  reflexivity.
Defined.

Lemma for_map_length {A B} (l : list A) (f : A -> M B) (w w' : World) (ys : list B) :
  for_map l f w = (Ok ys, w') -> length ys = length l.
Proof.
  revert w w' ys. induction l as [|x l IH]; intros w w' ys H; simpl in H.
  - injection H as <- _. reflexivity.
  - unfold bind in H. destruct (f x w) as [[y|e] w1]; [|discriminate].
    destruct (for_map l f w1) as [[ys'|e] w2] eqn:E; [|discriminate].
    injection H as <- _. simpl. f_equal. exact (IH _ _ _ E).
Qed.

Lemma count_equal_bounds (lbls preds : list Z) :
  0 <= count_equal lbls preds <= Z.of_nat (length lbls).
Proof.
  unfold count_equal. split; [lia|]. apply Nat2Z.inj_le.
  etransitivity; [apply length_filter|].
  rewrite length_combine. apply Nat.le_min_l.
Qed.

Lemma chunks_total {A} (fuel n : nat) (l : list A) :
  (length (concat (chunks fuel n l)) <= length l)%nat.
Proof.
  revert l. induction fuel as [|fuel IH]; intros l.
  - destruct l; simpl; lia.
  - destruct l as [|x l]; [simpl; lia|].
    cbn [chunks concat]. rewrite length_app.
    specialize (IH (skipn n (x :: l))).
    rewrite length_firstn. rewrite length_skipn in IH. lia.
Qed.

Lemma correct_bounds (fw : Framework) (model : Network) (dl : DataLoader)
    (groups : list (list nat)) :
  forall (acc : Z) (w w' : World) (c : Z),
  for_fold groups acc (fun correct g =>
    b <- fetch fw dl g ;;
    preds <- predict fw model (fst b) ;;
    ret (correct + count_equal (snd b) preds)) w = (Ok c, w') ->
  acc <= c <= acc + Z.of_nat (length (concat groups)).
Proof.
  induction groups as [|g groups IH]; intros acc w w' c H; simpl in H.
  - injection H as <- _. simpl. lia.
  - unfold bind at 1 in H.
    match type of H with
    | match ?m w with _ => _ end = _ => destruct (m w) as [[acc'|e] w1] eqn:E
    end; [|discriminate].
    specialize (IH _ _ _ _ H).
    unfold fetch in E. unfold bind in E.
    destruct (for_map g _ w) as [[samples|e] w0] eqn:Ef; [|discriminate].
    pose proof (for_map_length _ _ _ _ _ Ef) as Hlen.
    unfold ret, predict, bind, tick in E. simpl in E.
    injection E as <- _.
    pose proof (count_equal_bounds (map snd samples)
                  (argmax_forward fw model (ticks w0) (map fst samples))) as Hc.
    rewrite length_map, Hlen in Hc.
    cbn [concat]. rewrite length_app. lia.
Qed.

Lemma batches_cover (n b : Z) : 0 <= n -> 0 < b -> n <= (n + b - 1) / b * b.
Proof.
  intros Hn Hb. pose proof (Z.div_mod (n + b - 1) b ltac:(lia)) as Hd.
  pose proof (Z.mod_pos_bound (n + b - 1) b Hb) as Hm. nia.
Qed.

Lemma percent_bounds (c d : Z) :
  0 <= c <= d -> 0 < d -> (0 <= inject_Z c / inject_Z d * 100 <= 100)%Q.
Proof.
  intros Hc Hd.
  assert (HdQ : (0 < inject_Z d)%Q)
    by (change (inject_Z 0 < inject_Z d)%Q; rewrite <- Zlt_Qlt; exact Hd).
  assert (H0 : (0 <= inject_Z c / inject_Z d)%Q).
  { apply Qle_shift_div_l; [exact HdQ|]. rewrite Qmult_0_l.
    change (inject_Z 0 <= inject_Z c)%Q. rewrite <- Zle_Qle. lia. }
  assert (H1 : (inject_Z c / inject_Z d <= 1)%Q).
  { apply Qle_shift_div_r; [exact HdQ|]. rewrite Qmult_1_l.
    rewrite <- Zle_Qle. lia. }
  split.
  - apply Qmult_le_0_compat; [exact H0|discriminate].
  - apply (Qle_trans _ (1 * 100)%Q); [|discriminate].
    apply Qmult_le_compat_r; [exact H1|discriminate].
Qed.

(** With the loader's own batch size and a framework whose shuffled order
    of [n] examples has [n] entries, whatever [test] returns is a finite
    percentage between 0 and 100: the right predictions are at most the
    examples, and these are at most batches times batch size. *)
Theorem test_within_bounds (fw : Framework) (model : Network) (dl : DataLoader)
    (w w' : World) (x : pyfloat) :
  0 < batch_size dl ->
  (forall k n, length (permutation fw k n) = n) ->
  test fw model (batch_size dl) dl w = (Ok x, w') ->
  exists q, x = Finite q /\ (0 <= q <= 100)%Q.
Proof.
  intros Hb Hperm H. unfold test in H.
  set (n := length (labels (dl_dataset dl))) in *.
  set (groups := chunks n (Z.to_nat (batch_size dl)) (permutation fw (ticks w) n)) in *.
  rewrite (bind_run (index_batches fw dl) _ w
             (mkWorld (cwd w) (fs w) (trace w) (S (ticks w))) groups eq_refl) in H.
  unfold bind at 1 in H.
  match type of H with
  | match ?m ?w0 with _ => _ end = _ => destruct (m w0) as [[c|e] w1] eqn:E
  end; [|discriminate].
  pose proof (correct_bounds fw model dl groups _ _ _ _ E) as Hc.
  pose proof (chunks_total n (Z.to_nat (batch_size dl)) (permutation fw (ticks w) n)) as Ht.
  fold groups in Ht. rewrite Hperm in Ht.
  pose proof (batches_cover (Z.of_nat n) (batch_size dl) ltac:(lia) Hb) as Hcover.
  assert (Hden : DataLoader_len dl * batch_size dl = (Z.of_nat n + batch_size dl - 1) / batch_size dl * batch_size dl)
    by reflexivity.
  destruct groups as [|g groups'] eqn:Eg.
  - simpl in Hc. assert (c = 0) by lia. subst c.
    unfold bind, lift, int_div, ret in H.
    destruct (DataLoader_len dl * batch_size dl =? 0) eqn:Ez; [discriminate|].
    injection H as <- _. eexists. split; [reflexivity|].
    apply Z.eqb_neq in Ez. apply percent_bounds; lia.
  - assert (Hn : (0 < n)%nat).
    { destruct n; [|lia]. subst groups. simpl in Eg.
      destruct (permutation fw (ticks w) 0); discriminate. }
    unfold ret, tensor_div in H.
    assert (Hpos : 0 < DataLoader_len dl * batch_size dl) by lia.
    destruct (DataLoader_len dl * batch_size dl =? 0) eqn:Ez;
      [apply Z.eqb_eq in Ez; lia|].
    injection H as <- _. eexists. split; [reflexivity|].
    apply percent_bounds; lia.
Qed.

Lemma test_within_bounds_witness :
  0 < 2 /\
  (forall k n, length (permutation Sample.fw0 k n) = n) /\
  exists q, fst (test Sample.fw0 Sample.exact_network 2 Sample.tiny_loader Sample.world0)
            = Ok (Finite q) /\ (0 <= q <= 100)%Q.
Proof.
  assert (Hp : forall k n, length (permutation Sample.fw0 k n) = n)
    by (intros k n; apply length_seq).
  split; [lia|]. split; [exact Hp|].
  destruct (test_within_bounds Sample.fw0 Sample.exact_network Sample.tiny_loader
              Sample.world0
              (snd (test Sample.fw0 Sample.exact_network 2 Sample.tiny_loader Sample.world0))
              (Finite (300 # 4)) ltac:(simpl; lia) Hp ltac:(vm_compute; reflexivity))
    as (q & Hq & Hb).
  exists q. split; [|exact Hb]. rewrite <- Hq. vm_compute. reflexivity.
Defined.

(** ** What an attempt does before it persists *)

Lemma only_changes_preorder (p : string) : fs_preorder (only_changes p).
Proof.
  split.
  - intros m k _. reflexivity.
  - intros m1 m2 m3 H12 H23 k Hk. rewrite (H23 k Hk). apply H12. exact Hk.
Qed.

Ltac quiet_solve :=
  frame_auto;
  try exact I;
  try (unfold only_changes; intros; apply lookup_alter_ne; congruence).

(** Obtaining the model, drawing the sample images, training and testing
    leave every file but the run directory of the writer as it was, keep
    the working directory, and record nothing but prints and file reads: no
    checkpoint is written or removed before the comparison. *)
Theorem attempt_touches_only_run (fw : Framework) (construct : Constructor)
    (name : string) (load : bool) (epochs batch : Z) (model : Network)
    (dl : DataLoader) (writer : SummaryWriter) (title : string) :
  keeps reads_or_prints (only_changes (log_dir writer))
    (obtain_model fw construct name load) /\
  keeps reads_or_prints (only_changes (log_dir writer))
    (data_image fw dl writer title) /\
  keeps reads_or_prints (only_changes (log_dir writer))
    (train fw name epochs batch model dl writer) /\
  keeps reads_or_prints (only_changes (log_dir writer))
    (test fw model batch dl).
Proof.
  pose proof (only_changes_preorder (log_dir writer)) as Hpre.
  split; [|split; [|split]]; quiet_solve.
Qed.

(** ** More on main *)

(** Without a file Data.csv in the working directory [main] raises
    [FileNotFoundError] right after its three opening prints; no directory
    or file has been created by then. *)
Theorem main_without_data (fw : Framework) (construct : Constructor) (a : option Args)
    (name : string) (epochs batch : Z) (load : bool) (mini maxi rot : Q) (att : Z)
    (w : World) :
  String.eqb name "Current" = false ->
  fs w !! (cwd w +:+ "/" +:+ "Data.csv") = None ->
  exists m,
    main_with fw construct a name epochs batch load mini maxi rot att w
    = (Raise (FileNotFoundError (cwd w +:+ "/" +:+ "Data.csv")),
       mkWorld (cwd w) (fs w)
         (trace w ++ [Print (banner (cwd w)); Print m; Print [Text "Loading data..."]])
         (ticks w)).
Proof.
  intros Hname Hcsv. unfold main_with. rewrite Hname.
  repeat (progress (unfold bind, getcwd, print, emit, in_cwd, read_csv, get_fs, ret, throw;
                    cbv beta iota; cbn [cwd fs trace ticks])).
  rewrite Hcsv. eexists. rewrite <- !app_assoc. reflexivity.
Qed.

Lemma main_without_data_witness :
  String.eqb "Model" "Current" = false /\
  fs (mkWorld "/work" ∅ [] 0) !! ("/work" +:+ "/" +:+ "Data.csv") = None /\
  fst (main Sample.fw0 None "Model" 1 2 false 1 1 0 1 (mkWorld "/work" ∅ [] 0))
  = Raise (FileNotFoundError "/work/Data.csv").
Proof.
  assert (H : fs (mkWorld "/work" ∅ [] 0) !! ("/work" +:+ "/" +:+ "Data.csv") = None)
    by apply lookup_empty.
  split; [reflexivity|]. split; [exact H|].
  destruct (main_without_data Sample.fw0 NeuralNetwork None "Model" 1 2 false 1 1 0 1
              (mkWorld "/work" ∅ [] 0) eq_refl H) as [m Hm].
  unfold main. rewrite Hm. reflexivity.
Defined.

(** Lines 272 to 287 as a function of the files and the constructor.
    Without [load] a new network is built.  With [load], the network
    carries the checkpoint's parameters and counts as loaded exactly when
    the checkpoint exists, is a checkpoint and fits the constructed layers;
    when it is missing, or when anything inside the [try] fails, the
    outcome is that of building a new network: the failure is swallowed,
    and only the new construction can still raise. *)
Theorem obtain_model_best_effort (fw : Framework) (construct : Constructor)
    (name : string) (load : bool) (w : World) :
  fst (obtain_model fw construct name load w) =
  if load then
    match fs w !! (cwd w +:+ "/" +:+ ("Models/" +:+ name +:+ ".pt")) with
    | None => built_new fw construct (ticks w)
    | Some node =>
        match construct fw (ticks w), node with
        | Ok net, CheckpointFile sd =>
            if fits fw (layers net) sd
            then Ok (mkNetwork (layers net) (loss net) (optimizer net) sd, false)
            else built_new fw construct (S (ticks w))
        | _, _ => built_new fw construct (S (ticks w))
        end
    end
  else built_new fw construct (ticks w).
Proof.
  unfold obtain_model, built_new.
  rewrite (bind_run (in_cwd _) _ w w (cwd w +:+ "/" +:+ ("Models/" +:+ name +:+ ".pt")))
    by reflexivity.
  set (p := cwd w +:+ "/" +:+ ("Models/" +:+ name +:+ ".pt")).
  destruct load.
  - unfold bind at 1. unfold bind at 1.
    unfold path_exists, get_fs, bind at 1, ret at 1. cbv beta iota.
    cbn [fs]. destruct (fs w !! p) as [node|] eqn:Ep.
    + rewrite bool_decide_eq_true_2 by (exists node; reflexivity). cbn [negb].
      unfold try_except, new_network, torch_load, load_state_dict, lift, print, emit,
        tick, get_fs, bind, ret, throw.
      cbv beta iota. cbn [cwd fs trace ticks].
      destruct (construct fw (ticks w)) as [net|e]; cbv beta iota; cbn [cwd fs trace ticks].
      * rewrite Ep. destruct node; cbv beta iota; cbn [cwd fs trace ticks];
          try (destruct (construct fw (S (ticks w))); reflexivity).
        destruct (fits fw (layers net) sd); cbv beta iota; cbn [cwd fs trace ticks];
          [reflexivity|].
        destruct (construct fw (S (ticks w))); reflexivity.
      * destruct (construct fw (S (ticks w))); destruct node; reflexivity.
    + rewrite bool_decide_eq_false_2 by (intros [x Hx]; discriminate). cbn [negb].
      unfold new_network, lift, print, emit, tick, bind, ret.
      cbv beta iota. cbn [cwd fs trace ticks].
      destruct (construct fw (ticks w)); reflexivity.
  - unfold new_network, lift, tick, bind, ret. cbv beta iota. cbn [cwd fs trace ticks].
    destruct (construct fw (ticks w)); reflexivity.
Qed.

(** ** Shapes of the three networks *)

(** Every network that [define_layers] returns accepts a single-channel
    48 x 48 image and ends in 7 outputs: each layer receives the channels
    or features it was declared with, by the size formulas of the
    docstring, whatever the number of outputs of the pretrained ResNet18. *)
Theorem define_layers_shapes (resnet_features : Z) (name : string) (net : Sequential) :
  define_layers name = Ok net ->
  network_shape resnet_features net (Planes 1 48 48) = Some (Features 7).
Proof.
  unfold define_layers. cbv zeta.
  destruct (String.eqb (lower name) "simple");
    [|destruct (String.eqb (lower name) "expanded");
      [|destruct (String.eqb (lower name) "resnet")]];
    intros H; try discriminate; injection H as <-; reflexivity.
Qed.

Lemma define_layers_shapes_witness :
  define_layers "Expanded" = Ok expanded_network /\
  network_shape 1000 expanded_network (Planes 1 48 48) = Some (Features 7).
Proof.
  split; [reflexivity|].
  apply (define_layers_shapes 1000 "Expanded"). reflexivity.
Defined.

Lemma main_never_completes_witness :
  String.eqb "Model" "Current" = false /\
  exists e, fst (main Sample.fw0 (Some (Sample.args0 false 3)) "Model" 1 2 false 1 1 0 3
                   Sample.world0) = Raise e.
Proof.
  split; [reflexivity|].
  exact (main_never_completes Sample.fw0 (Some (Sample.args0 false 3)) "Model" 1 2 false
           1 1 0 3 eq_refl Sample.world0).
Defined.

(** ** Training *)

Lemma bind_Ok {A B} (m : M A) (k : A -> M B) (w w' : World) (b : B) :
  bind m k w = (Ok b, w') -> exists a w1, m w = (Ok a, w1) /\ k a w1 = (Ok b, w').
Proof.
  unfold bind. destruct (m w) as [[x|e] w1]; [|discriminate].
  intros H. exists x, w1. split; [reflexivity|exact H].
Qed.

Lemma same_architecture_refl (m : Network) : same_architecture m m.
Proof. repeat split. Qed.

Lemma same_architecture_trans (m1 m2 m3 : Network) :
  same_architecture m1 m2 -> same_architecture m2 m3 -> same_architecture m1 m3.
Proof. unfold same_architecture. intros (?&?&?) (?&?&?). repeat split; congruence. Qed.

Lemma mean_loss_world (total : Q) (dl : DataLoader) (w w' : World) (x : pyfloat) :
  mean_loss total dl w = (Ok x, w') -> w' = w.
Proof.
  unfold mean_loss. destruct (DataLoader_len dl =? 0); unfold throw, ret; congruence.
Qed.

Lemma optimize_architecture (fw : Framework) (model : Network) (imgs : list Image)
    (lbls : list Z) (w w' : World) (r : Network * Q) :
  optimize fw model imgs lbls w = (Ok r, w') -> same_architecture model (fst r).
Proof.
  unfold optimize, bind, tick, ret.
  destruct (step fw model (ticks w) imgs lbls) as [sd l].
  intros H. injection H as <- _. repeat split.
Qed.

Lemma train_epoch_architecture (fw : Framework) (dl : DataLoader)
    (groups : list (list nat)) :
  forall (st st' : Network * Q) (w w' : World),
  for_fold groups st (fun st g =>
    b <- fetch fw dl g ;;
    r <- optimize fw (fst st) (fst b) (snd b) ;;
    ret (fst r, (snd st + snd r)%Q)) w = (Ok st', w') ->
  same_architecture (fst st) (fst st').
Proof.
  induction groups as [|g groups IH]; intros st st' w w' H; cbn [for_fold] in H.
  - unfold ret in H. injection H as <- _. apply same_architecture_refl.
  - apply bind_Ok in H as (st1 & w1 & H1 & H2).
    apply bind_Ok in H1 as (b & w2 & _ & H1).
    apply bind_Ok in H1 as (r & w3 & Ho & H1).
    unfold ret in H1. injection H1 as <- _.
    apply optimize_architecture in Ho.
    apply IH in H2. cbn [fst] in H2.
    eapply same_architecture_trans; eassumption.
Qed.

Lemma train_epoch_fs (fw : Framework) (model : Network) (dl : DataLoader) (w : World) :
  fs (snd (train_epoch fw model dl w)) = fs w.
Proof.
  assert (K : keeps any_event eq (train_epoch fw model dl)).
  { pose proof same_fs_preorder as Hpre. unfold train_epoch. frame_solve. }
  destruct (K w) as (_ & Hfs & _). symmetry. exact Hfs.
Qed.

Lemma loss_steps_app (evs1 evs2 : list TBEvent) :
  loss_steps (evs1 ++ evs2) = loss_steps evs1 ++ loss_steps evs2.
Proof. unfold loss_steps. apply flat_map_app. Qed.

(** A loop whose every round adds one scalar at its own step to the run at
    [p], and keeps the architecture, adds the steps of its rounds in order. *)
Lemma for_fold_logs {S} (p : string) (arch : S -> Network) (body : S -> Z -> M S) :
  (forall st e w st' w' evs,
     body st e w = (Ok st', w') -> fs w !! p = Some (RunData evs) ->
     exists ev, fs w' !! p = Some (RunData (evs ++ [ev])) /\ loss_steps [ev] = [e] /\
                same_architecture (arch st) (arch st')) ->
  forall es st w st' w' evs,
    for_fold es st body w = (Ok st', w') -> fs w !! p = Some (RunData evs) ->
    exists new, fs w' !! p = Some (RunData (evs ++ new)) /\ loss_steps new = es /\
                length new = length es /\ same_architecture (arch st) (arch st').
Proof.
  intros Hbody. induction es as [|e es IH]; intros st w st' w' evs H Hfs; cbn [for_fold] in H.
  - unfold ret in H. injection H as <- <-. exists []. rewrite app_nil_r.
    split; [exact Hfs|]. split; [reflexivity|]. split; [reflexivity|].
    apply same_architecture_refl.
  - apply bind_Ok in H as (st1 & w1 & H1 & H2).
    destruct (Hbody _ _ _ _ _ _ H1 Hfs) as (ev & Hfs1 & Hev & Ha1).
    destruct (IH _ _ _ _ _ H2 Hfs1) as (new & Hfs2 & Hnew & Hlen & Ha2).
    exists (ev :: new). rewrite <- app_assoc in Hfs2. cbn [app] in Hfs2.
    split; [exact Hfs2|].
    split; [change (ev :: new) with ([ev] ++ new); rewrite loss_steps_app, Hev, Hnew; reflexivity|].
    split; [cbn [length]; rewrite Hlen; reflexivity|].
    eapply same_architecture_trans; eassumption.
Qed.

(** Whenever the training of lines 291 to 303 completes, the run directory
    has received exactly one "Training Loss" scalar per epoch, at the steps
    0, 1, ..., epochs - 1 in this order and nothing else, and the trained
    network has the layers, the loss and the optimizer it started with. *)
Theorem train_logs_every_epoch (fw : Framework) (name : string) (epochs batch : Z)
    (model model' : Network) (dl : DataLoader) (writer : SummaryWriter)
    (evs : list TBEvent) (w w' : World) :
  fs w !! log_dir writer = Some (RunData evs) ->
  train fw name epochs batch model dl writer w = (Ok model', w') ->
  exists new,
    fs w' !! log_dir writer = Some (RunData (evs ++ new)) /\
    loss_steps new = py_range 0 epochs /\
    length new = Z.to_nat epochs /\
    same_architecture model model'.
Proof.
  intros Hfs H. unfold train in H.
  apply bind_Ok in H as ([] & w1 & Hp & H).
  assert (Hfs1 : fs w1 !! log_dir writer = Some (RunData evs)).
  { unfold print, emit in Hp. injection Hp as <-. exact Hfs. }
  apply bind_Ok in H as (st & w2 & Hloop & H).
  assert (Hend : w' = w2 \/ fs w' = fs w2 /\ fst st = model').
  { destruct (snd st) as [l|]; [|discriminate].
    apply bind_Ok in H as (x & w3 & Hm & H). apply mean_loss_world in Hm. subst w3.
    apply bind_Ok in H as ([] & w4 & Hp2 & H).
    unfold print, emit in Hp2. injection Hp2 as <-.
    unfold ret in H. injection H as <- <-. right. split; reflexivity. }
  assert (Hmodel : fst st = model').
  { destruct (snd st) as [l|]; [|discriminate].
    apply bind_Ok in H as (x & w3 & Hm & H).
    apply bind_Ok in H as ([] & w4 & Hp2 & H).
    unfold ret in H. injection H as <- _. reflexivity. }
  assert (Hfs' : fs w' = fs w2) by (destruct Hend as [->|[E _]]; [reflexivity|exact E]).
  clear H Hend.
  eapply (for_fold_logs (log_dir writer) fst) in Hloop; [|clear; intros st e w st' w' evs H Hfs|exact Hfs1].
  - destruct Hloop as (new & Hnew & Hsteps & Hlen & Harch).
    exists new. rewrite Hfs'. split; [exact Hnew|]. split; [exact Hsteps|].
    split; [rewrite Hlen; unfold py_range; rewrite length_map, length_seq; f_equal; lia|].
    subst model'. exact Harch.
  - cbv beta in H.
    apply bind_Ok in H as (shown & w1 & Hs & H).
    assert (w1 = w).
    { destruct (snd st) as [l|].
      - apply bind_Ok in Hs as (x & w0 & Hm & Hs). apply mean_loss_world in Hm. subst w0.
        unfold ret in Hs. congruence.
      - unfold ret in Hs. congruence. }
    subst w1. clear Hs.
    apply bind_Ok in H as ([] & w1 & Hp & H).
    assert (Hfs1 : fs w1 = fs w) by (unfold print, emit in Hp; injection Hp as <-; reflexivity).
    apply bind_Ok in H as (r & w2 & He & H).
    assert (Hfs2 : fs w2 = fs w1).
    { pose proof (train_epoch_fs fw (fst st) dl w1) as E. rewrite He in E. exact E. }
    assert (Ha : same_architecture (fst st) (fst r)).
    { unfold train_epoch in He. apply bind_Ok in He as (groups & w0 & _ & He).
      apply train_epoch_architecture in He. exact He. }
    apply bind_Ok in H as (x & w3 & Hm & H). apply mean_loss_world in Hm. subst w3.
    apply bind_Ok in H as ([] & w3 & Hw & H).
    unfold ret in H. injection H as <- <-.
    unfold writer_add, set_fs in Hw. injection Hw as <-. cbn [fs fst].
    exists (AddScalar "Training Loss" x e).
    split; [|split; [reflexivity|exact Ha]].
    rewrite lookup_alter. rewrite decide_True by reflexivity.
    rewrite Hfs2, Hfs1, Hfs. reflexivity.
Qed.

Lemma train_logs_every_epoch_witness :
  fs Sample.world1 !! log_dir Sample.writer0 = Some (RunData []) /\
  exists model' new,
    fst (train Sample.fw0 "Model" 2 2 Sample.wrong_network Sample.tiny_loader
           Sample.writer0 Sample.world1) = Ok model' /\
    fs (snd (train Sample.fw0 "Model" 2 2 Sample.wrong_network Sample.tiny_loader
               Sample.writer0 Sample.world1)) !! log_dir Sample.writer0
    = Some (RunData ([] ++ new)) /\
    loss_steps new = [0; 1] /\ same_architecture Sample.wrong_network model'.
Proof.
  assert (H : fs Sample.world1 !! log_dir Sample.writer0 = Some (RunData []))
    by (vm_compute; reflexivity).
  split; [exact H|].
  assert (E : fst (train Sample.fw0 "Model" 2 2 Sample.wrong_network Sample.tiny_loader
                     Sample.writer0 Sample.world1) = Ok Sample.wrong_network)
    by (vm_compute; reflexivity).
  assert (E' : train Sample.fw0 "Model" 2 2 Sample.wrong_network Sample.tiny_loader
                 Sample.writer0 Sample.world1
               = (Ok Sample.wrong_network,
                  snd (train Sample.fw0 "Model" 2 2 Sample.wrong_network Sample.tiny_loader
                         Sample.writer0 Sample.world1))).
  { destruct (train Sample.fw0 "Model" 2 2 Sample.wrong_network Sample.tiny_loader
                Sample.writer0 Sample.world1) as [r w']. cbn [fst snd] in *. rewrite E.
    reflexivity. }
  destruct (train_logs_every_epoch _ _ _ _ _ _ _ _ _ _ _ H E') as (new & Hn & Hs & _ & Ha).
  exists Sample.wrong_network, new.
  split; [exact E|]. split; [exact Hn|]. split; [exact Hs|exact Ha].
Defined.

(** ** Paths *)






(** ** Files that survive a computation *)

Section Preserving.

Variable d q : string.
Variable node : Node.



















End Preserving.




Section Saving.

Variable fw : Framework.
Variable a : option Args.



End Saving.

(** ** What the comparison leaves on disk *)

Section Persisting.

Variable fw : Framework.
Variable construct : Constructor.
Variable a : option Args.





End Persisting.

(** ** The comparison in the repository *)



(** ** More on persisting *)







(** ** The attempt loop in the repository *)

Lemma counts_begins {A} (n : nat) (m : M A) : counts n m -> begins n m.
Proof.
  intros H w. destruct (H w) as (evs & Ht & Hc).
  exists evs. split; [exact Ht|]. split; [lia|]. intros _. exact Hc.
Qed.

(** A loop whose passes all raise stops in its first pass. *)
Lemma for_each_first_pass {A} (x : A) (rest : list A) (body : A -> M unit) (w : World) :
  (exists e, fst (body x w) = Raise e) ->
  for_each (x :: rest) body w = body x w.
Proof.
  intros [e He]. cbn [for_each]. unfold bind.
  destruct (body x w) as [[[]|e'] w1]; [discriminate|reflexivity].
Qed.

Lemma py_range_first (n : Z) : 1 <= n -> exists rest, py_range 0 n = 0 :: rest.
Proof.
  intros H. unfold py_range.
  destruct (Z.to_nat (n - 0)) as [|k] eqn:E; [lia|].
  cbn [seq map]. eexists. reflexivity.
Qed.

Lemma obtain_model_TypeError (fw : Framework) (name : string) (load : bool) (w : World) :
  fst (obtain_model fw NeuralNetwork name load w)
  = Raise (TypeError "define_layers() missing 1 required positional argument").
Proof.
  unfold obtain_model.
  rewrite (bind_run (in_cwd _) _ w w (cwd w +:+ "/" +:+ ("Models/" +:+ name +:+ ".pt")))
    by reflexivity.
  destruct load.
  - unfold bind, path_exists, get_fs, ret. simpl.
    destruct (bool_decide (is_Some (fs w !! _))); reflexivity.
  - reflexivity.
Qed.

Lemma attempt_body_TypeError (fw : Framework) (a : option Args) (name : string)
    (epochs batch : Z) (load : bool) (att : Z)
    (training_data testing_data : FaceDataset) (testing_total attempt : Z) (w : World) :
  fst (attempt_body fw NeuralNetwork a name epochs batch load att
         training_data testing_data testing_total attempt w)
  = Raise (TypeError "define_layers() missing 1 required positional argument").
Proof.
  unfold attempt_body. unfold bind at 1.
  destruct (when (1 <? att) _ w) as [[[]|e] w1] eqn:E1.
  2: { exfalso. destruct (1 <? att); discriminate E1. }
  unfold bind at 1.
  destruct (SummaryWriter_init "runs/Current" w1) as [[writer|e] w2] eqn:E2.
  2: { exfalso. revert E2.
       unfold SummaryWriter_init, in_cwd, getcwd, get_fs, bind, ret, emit, set_fs.
       simpl. destruct (fs w1 !! _); discriminate. }
  unfold bind at 1.
  pose proof (obtain_model_TypeError fw name load w2) as Ho.
  destruct (obtain_model fw NeuralNetwork name load w2) as [r w3].
  simpl in Ho. subst r. reflexivity.
Qed.

(** The loop of lines 268 to 363 with the repository's [NeuralNetwork]:
    its first pass opens the writer and raises [TypeError]; no second pass
    begins, however many were asked for. *)
Lemma attempt_loop_one_pass (fw : Framework) (a : option Args) (name : string)
    (epochs batch : Z) (load : bool) (att : Z)
    (training_data testing_data : FaceDataset) (testing_total : Z) :
  counts 1 (for_each (py_range 0 (attempts load att))
              (attempt_body fw NeuralNetwork a name epochs batch load (attempts load att)
                 training_data testing_data testing_total)).
Proof.
  intros w.
  destruct (py_range_first (attempts load att) (attempts_positive load att))
    as [rest ->].
  rewrite for_each_first_pass
    by (eexists; apply attempt_body_TypeError).
  apply attempt_body_counts.
Qed.

(** C8 (not what the code does): with the repository's [NeuralNetwork] the
    attempt loop never gets past its first pass.  For a name other than
    "Current", [main] raises and has begun at most one pass, whatever
    [load] and the number of attempts asked for are; and the loop itself,
    once reached, begins exactly one pass and raises the [TypeError] of the
    construction. *)
Theorem attempt_loop_stops_at_first (fw : Framework) (a : option Args) (name : string)
    (epochs batch : Z) (load : bool) (mini maxi rot : Q) (att : Z) (w : World) :
  String.eqb name "Current" = false ->
  let run := main fw a name epochs batch load mini maxi rot att w in
  (exists e, fst run = Raise e) /\
  (attempts_begun (events_since w (snd run)) <= 1)%nat /\
  forall (training_data testing_data : FaceDataset) (testing_total : Z) (w1 : World),
    let loop := for_each (py_range 0 (attempts load att))
                  (attempt_body fw NeuralNetwork a name epochs batch load
                     (attempts load att) training_data testing_data testing_total) w1 in
    fst loop = Raise (TypeError "define_layers() missing 1 required positional argument")
    /\ attempts_begun (events_since w1 (snd loop)) = 1%nat.
Proof.
  intros Hname run. split; [|split].
  - unfold run. revert w run.
    change (fails (main fw a name epochs batch load mini maxi rot att)).
    unfold main, main_with. rewrite Hname.
    repeat (apply fails_bind_r; intros).
    destruct (py_range_first (attempts load att) (attempts_positive load att))
      as [rest ->].
    cbn [for_each]. apply fails_bind_l. apply attempt_body_fails.
  - assert (B : begins 1 (main fw a name epochs batch load mini maxi rot att)).
    { pose proof any_fs_preorder as Hpre. unfold main, main_with. rewrite Hname.
      repeat (apply begins_bind_quiet; [solve [frame_solve]|intros]).
      apply counts_begins, attempt_loop_one_pass. }
    destruct (B w) as (evs & Ht & Hle & _).
    unfold run. rewrite (events_since_app _ _ _ Ht). exact Hle.
  - intros training_data testing_data testing_total w1 loop. split.
    + unfold loop.
      destruct (py_range_first (attempts load att) (attempts_positive load att))
        as [rest ->].
      rewrite for_each_first_pass by (eexists; apply attempt_body_TypeError).
      apply attempt_body_TypeError.
    + destruct (attempt_loop_one_pass fw a name epochs batch load att training_data
                  testing_data testing_total w1) as (evs & Ht & Hc).
      unfold loop. rewrite (events_since_app _ _ _ Ht). exact Hc.
Qed.

Lemma attempt_loop_stops_at_first_witness :
  let run := main Sample.fw0 (Some (Sample.args0 false 3)) "Model" 1 2 false 1 1 0 3
               Sample.world0 in
  String.eqb "Model" "Current" = false /\
  attempts false 3 = 3 /\
  fst run = Raise (TypeError "define_layers() missing 1 required positional argument") /\
  attempts_begun (events_since Sample.world0 (snd run)) = 1%nat.
Proof.
  intros run.
  destruct (attempt_loop_stops_at_first Sample.fw0 (Some (Sample.args0 false 3)) "Model"
              1 2 false 1 1 0 3 Sample.world0 eq_refl) as (_ & Hle & _).
  fold run in Hle.
  split; [reflexivity|]. split; [reflexivity|]. split; [vm_compute; reflexivity|].
  assert (Hge : (1 <= attempts_begun (events_since Sample.world0 (snd run)))%nat)
    by (vm_compute; lia).
  lia.
Defined.

